(** * logflow-processor: a shallow embedding of [log_analyzer.py]

    The development follows the source file top to bottom: the Python
    values the program manipulates (strings, insertion-ordered
    dictionaries, exceptions and the logging side channel), then
    [protocol_map], [load_lookup_table], [parse_flow_logs] and
    [save_results], then the properties of each. *)

From Stdlib Require Import List String Ascii ZArith NArith Lia Bool.
From Stdlib Require Import DecimalString.
From Stdlib Require DecimalPos.
From Stdlib Require Import Permutation Sorted.
Import ListNotations.

Local Open Scope string_scope.
Local Open Scope Z_scope.

(** ** Python strings

    A [str] is modelled as a [string]; a character is a code point
    below 256. *)

Module Str.

(** [str.isspace] on one code point below 256. *)
Definition isspace (c : ascii) : bool :=
  let n := N_of_ascii c in
  (((9 <=? n) && (n <=? 13)) || ((28 <=? n) && (n <=? 32))
   || (n =? 133) || (n =? 160))%N.

(** [str.lower] on one code point below 256. *)
Definition lower_char (c : ascii) : ascii :=
  let n := N_of_ascii c in
  if (((65 <=? n) && (n <=? 90))
      || ((192 <=? n) && (n <=? 222) && negb (n =? 215)))%N
  then ascii_of_N (n + 32) else c.

Fixpoint lower (s : string) : string :=
  match s with
  | EmptyString => EmptyString
  | String c s' => String (lower_char c) (lower s')
  end.

Definition is_empty (s : string) : bool :=
  match s with EmptyString => true | _ => false end.

(** [split_from cur s]: the fields of [s] when [cur] is the field
    being read.  Runs of whitespace separate fields and produce no
    empty field. *)
Fixpoint split_from (cur s : string) : list string :=
  match s with
  | EmptyString => if is_empty cur then [] else [cur]
  | String c s' =>
      if isspace c
      then (if is_empty cur then split_from EmptyString s'
            else cur :: split_from EmptyString s')
      else split_from (cur ++ String c EmptyString) s'
  end.

(** [s.split()] with no argument. *)
Definition split (s : string) : list string := split_from EmptyString s.

(** [" ".join(fields)]. *)
Fixpoint join (fields : list string) : string :=
  match fields with
  | [] => EmptyString
  | [f] => f
  | f :: fs => f ++ " " ++ join fs
  end.

(** No character of [s] is whitespace. *)
Fixpoint no_space (s : string) : bool :=
  match s with
  | EmptyString => true
  | String c s' => negb (isspace c) && no_space s'
  end.

(** A token: what [split] can return as one field. *)
Definition is_token (s : string) : bool := negb (is_empty s) && no_space s.

End Str.

(** ** Keys

    The keys of the program's dictionaries are strings and pairs of
    strings; both are compared with [==]. *)

Class Key (K : Type) := { key_eqb : K -> K -> bool }.

#[global] Instance string_Key : Key string := {| key_eqb := String.eqb |}.

Definition pair_eqb (a b : string * string) : bool :=
  String.eqb (fst a) (fst b) && String.eqb (snd a) (snd b).

#[global] Instance pair_Key : Key (string * string) := {| key_eqb := pair_eqb |}.

(** [key_eqb] decides equality. *)
Class KeyLaws (K : Type) `{Key K} := {
  key_eqb_eq : forall a b : K, key_eqb a b = true <-> a = b
}.

(** ** Python dictionaries

    A [dict] keeps its items in insertion order, which [items()] and
    [sorted] observe, so it is an association list in that order.
    Assigning to a key that is present replaces the value in place;
    assigning to a new key appends an item. *)

Module Dict.
Section Dict.
Context {K V : Type} `{Key K}.

Definition dict := list (K * V).

Definition empty : dict := [].

(** [d.get(k)] *)
Fixpoint get (d : dict) (k : K) : option V :=
  match d with
  | [] => None
  | (k', v) :: d' => if key_eqb k' k then Some v else get d' k
  end.

(** [d.get(k, default)] *)
Definition get_default (d : dict) (k : K) (default : V) : V :=
  match get d k with Some v => v | None => default end.

(** [d[k] = v] *)
Fixpoint set (d : dict) (k : K) (v : V) : dict :=
  match d with
  | [] => [(k, v)]
  | (k', v') :: d' =>
      if key_eqb k' k then (k', v) :: d' else (k', v') :: set d' k v
  end.

(** [d.items()] *)
Definition items (d : dict) : list (K * V) := d.

Definition keys (d : dict) : list K := map fst d.

Definition values (d : dict) : list V := map snd d.
End Dict.
Arguments dict : clear implicits.

(** [d[k] += 1] on a [defaultdict(int)]: a missing key reads as 0. *)
Definition incr {K} `{Key K} (d : dict K Z) (k : K) : dict K Z :=
  set d k (get_default d k 0 + 1).

(** [sum(d.values())] *)
Definition total {K} (d : dict K Z) : Z := fold_right Z.add 0 (values d).

End Dict.

(** ** Exceptions and logging *)

Inductive exn :=
| FileNotFoundError (filename : string)
| OSError (msg : string)
| StopIteration
| IndexError (msg : string)
| ValueError (msg : string).

Inductive level := INFO | ERROR.

Definition log_record : Type := level * string.

Inductive result (A : Type) :=
| Ok (a : A)
| Raise (e : exn).
Arguments Ok {A} a.
Arguments Raise {A} e.

(** A decimal numeral, as [str(n)] prints a non-negative [int]. *)
Definition str_nat (n : nat) : string :=
  NilEmpty.string_of_uint (Nat.to_uint n).

(** [str(e)], the text an f-string prints for an exception. *)
Definition str_exn (e : exn) : string :=
  match e with
  | FileNotFoundError f => "[Errno 2] No such file or directory: '" ++ f ++ "'"
  | OSError msg => msg
  | StopIteration => ""
  | IndexError msg => msg
  | ValueError msg => msg
  end.

(** ** The files the program reads

    [open] either raises [FileNotFoundError], raises another [OSError],
    or gives the file.  A flow log is read as the lines its iterator
    yields; a lookup table as the rows [csv.reader] yields. *)

Inductive file (A : Type) :=
| Missing
| Unreadable (msg : string)
| Readable (content : A).
Arguments Missing {A}.
Arguments Unreadable {A} msg.
Arguments Readable {A} content.

(** ** Statements

    A statement runs on the log written so far and on the local
    objects [St] it may mutate, and either completes with a value or
    raises.  The log and the objects keep what was done before an
    exception. *)

Section Statements.
Context {St : Type}.

Definition M (A : Type) : Type :=
  list log_record * St -> (list log_record * St) * result A.

Definition ret {A} (a : A) : M A := fun w => (w, Ok a).

Definition bind {A B} (m : M A) (f : A -> M B) : M B :=
  fun w =>
    match m w with
    | (w', Ok a) => f a w'
    | (w', Raise e) => (w', Raise e)
    end.

Definition raise {A} (e : exn) : M A := fun w => (w, Raise e).

Definition logging (lvl : level) (msg : string) : M unit :=
  fun w => (((fst w ++ [(lvl, msg)])%list, snd w), Ok tt).

Definition read : M St := fun w => (w, Ok (snd w)).

Definition update (f : St -> St) : M unit :=
  fun w => ((fst w, f (snd w)), Ok tt).

(** [try: body except ...: handler e] *)
Definition try_except {A} (body : M A) (handler : exn -> M A) : M A :=
  fun w =>
    match body w with
    | (w', Ok a) => (w', Ok a)
    | (w', Raise e) => handler e w'
    end.

(** [for x in xs: body x] *)
Fixpoint for_each {A} (xs : list A) (body : A -> M unit) : M unit :=
  match xs with
  | [] => ret tt
  | x :: xs' => bind (body x) (fun _ => for_each xs' body)
  end.

(** [open(filename, 'r')] *)
Definition open {A} (fs : string -> file A) (filename : string) : M A :=
  match fs filename with
  | Missing => raise (FileNotFoundError filename)
  | Unreadable msg => raise (OSError msg)
  | Readable content => ret content
  end.

(** [xs[i]] for a non-negative literal index. *)
Definition index (xs : list string) (i : nat) : M string :=
  match nth_error xs i with
  | Some x => ret x
  | None => raise (IndexError "list index out of range")
  end.
End Statements.
Arguments M : clear implicits.

Notation "x <- m ;; k" := (bind m (fun x => k))
  (at level 61, m at next level, right associativity).
Notation "m ;;; k" := (bind m (fun _ => k))
  (at level 61, right associativity).

(** ** [protocol_map] *)

Definition protocol_map : Dict.dict string string :=
  [ ("1", "icmp");
    ("2", "igmp");
    ("6", "tcp");
    ("17", "udp");
    ("41", "ipv6-encapsulation");
    ("47", "gre");
    ("50", "esp");
    ("51", "ah");
    ("58", "icmpv6");
    ("89", "ospf");
    ("132", "sctp") ].

(** [protocol_map.get(protocol_code, "unknown")], line 77. *)
Definition resolve (protocol_code : string) : string :=
  Dict.get_default protocol_map protocol_code "unknown".

(** ** [load_lookup_table] *)

Definition lookup : Type := Dict.dict (string * string) string.

(** [next(reader)]: the first row and the reader past it. *)
Definition next {St A} (reader : list A) : M St (A * list A) :=
  match reader with
  | [] => raise StopIteration
  | row :: reader' => ret (row, reader')
  end.

(** The [ValueError] of unpacking a row that has not three fields. *)
Definition unpack_error (row : list string) : exn :=
  ValueError
    (if (List.length row <? 3)%nat
     then "not enough values to unpack (expected 3, got "
          ++ str_nat (List.length row) ++ ")"
     else "too many values to unpack (expected 3)").

(** The target [dstport, protocol, tag] of the loop of line 38. *)
Definition unpack3 {St} (row : list string) : M St (string * string * string) :=
  match row with
  | [dstport; protocol; tag] => ret (dstport, protocol, tag)
  | _ => raise (unpack_error row)
  end.

(** Lines 35 to 40, the body of the [try]. *)
Definition load_body (fs : string -> file (list (list string)))
    (filename : string) : M lookup unit :=
  reader <- open fs filename ;;
  r <- next reader ;;
  for_each (snd r) (fun row =>
    f <- unpack3 row ;;
    let '(dstport, protocol, tag) := f in
    update (fun lookup_table =>
      Dict.set lookup_table (dstport, Str.lower protocol) tag)) ;;;
  logging INFO "Lookup table successfully loaded.".

(** Lines 41 to 44, the two handlers; neither raises again. *)
Definition load_handler (filename : string) (e : exn) : M lookup unit :=
  match e with
  | FileNotFoundError _ =>
      logging ERROR ("Could not find the file: " ++ filename)
  | _ =>
      logging ERROR ("Error occurred while loading lookup table from "
                     ++ filename ++ ": " ++ str_exn e)
  end.

Definition load_lookup_table (fs : string -> file (list (list string)))
    (filename : string) : list log_record * result lookup :=
  let '((log, _), r) :=
    (try_except (load_body fs filename) (load_handler filename) ;;;
     read) ([], Dict.empty) in
  (log, r).

(** ** [parse_flow_logs] *)

Definition tag_counts_t : Type := Dict.dict string Z.
Definition port_protocol_counts_t : Type := Dict.dict (string * string) Z.
Definition counts : Type := tag_counts_t * port_protocol_counts_t.

(** Lines 66 to 82, the body of the loop over the lines. *)
Definition parse_line (lookup_table : lookup) (line : string) : M counts unit :=
  let fields := Str.split line in
  version <- index fields 0 ;;
  if negb (version =? "2")%string then
    logging ERROR ("Unsupported version " ++ version
                   ++ " in log entry. Expected version 2.") ;;;
    raise (ValueError ("Unsupported log version " ++ version
                       ++ " encountered. Stopping processing."))
  else
    dstport <- index fields 5 ;;
    protocol_code <- index fields 7 ;;
    let protocol := Dict.get_default protocol_map protocol_code "unknown" in
    let tag := Dict.get_default lookup_table (dstport, protocol) "Untagged" in
    update (fun c : counts =>
      (Dict.incr (fst c) tag, Dict.incr (snd c) (dstport, protocol))).

(** Lines 64 to 83, the body of the [try]. *)
Definition parse_body (fs : string -> file (list string))
    (log_filename : string) (lookup_table : lookup) : M counts unit :=
  logfile <- open fs log_filename ;;
  for_each logfile (parse_line lookup_table) ;;;
  logging INFO "Flow logs processed successfully.".

(** Lines 84 to 88: the first handler logs and falls through to the
    [return]; the second logs and raises the exception again. *)
Definition parse_handler (log_filename : string) (e : exn) : M counts unit :=
  match e with
  | FileNotFoundError _ =>
      logging ERROR ("Could not find the file: " ++ log_filename)
  | _ =>
      logging ERROR ("Error while processing flow logs from "
                     ++ log_filename ++ ": " ++ str_exn e) ;;;
      raise e
  end.

Definition parse_flow_logs (fs : string -> file (list string))
    (log_filename : string) (lookup_table : lookup)
    : list log_record * result counts :=
  let '((log, _), r) :=
    (try_except (parse_body fs log_filename lookup_table)
                (parse_handler log_filename) ;;;
     read) ([], (Dict.empty, Dict.empty)) in
  (log, r).

(** ** [save_results] *)

(** What [writer.writerow] is given: strings and integers. *)
Inductive cell :=
| Text (s : string)
| Int (z : Z).

Definition row : Type := list cell.

(** [sorted(xs, key=lambda x: x[1], reverse=True)].  Python's sort is
    stable, also with [reverse=True]: items of equal count keep their
    order, and that fixes the result.  [insert_desc x l] puts [x],
    which came before the items of [l], ahead of the first item whose
    count is not greater. *)
Fixpoint insert_desc (x : string * Z) (l : list (string * Z)) :=
  match l with
  | [] => [x]
  | y :: l' => if snd x <? snd y then y :: insert_desc x l' else x :: y :: l'
  end.

Fixpoint sorted_desc (xs : list (string * Z)) : list (string * Z) :=
  match xs with
  | [] => []
  | x :: xs' => insert_desc x (sorted_desc xs')
  end.

(** Lines 108 to 112. *)
Definition sorted_tags (tag_counts : tag_counts_t) : list (string * Z) :=
  sorted_desc
    (filter (fun x => negb (fst x =? "Untagged")%string)
            (Dict.items tag_counts)).

(** [writer.writerow(r)]; a sink that opened takes every row. *)
Definition writerow (r : row) : M (list row) unit :=
  update (fun written => (written ++ [r])%list).

(** Lines 105 to 120: the rows of the tag block, header included. *)
Definition write_tag_block (tag_counts : tag_counts_t) : M (list row) unit :=
  writerow [Text "Tag"; Text "Count"] ;;;
  let sorted_tags := sorted_tags tag_counts in
  let untagged_count := Dict.get_default tag_counts "Untagged" 0 in
  for_each sorted_tags (fun x =>
    writerow [Text (fst x); Int (snd x)]) ;;;
  if 0 <? untagged_count
  then writerow [Text "Untagged"; Int untagged_count]
  else ret tt.

(** Lines 102 to 128, the body of the [try]. *)
Definition save_body (sink : string -> file unit)
    (tag_counts : tag_counts_t) (port_protocol_counts : port_protocol_counts_t)
    (output_filename : string) : M (list row) unit :=
  open sink output_filename ;;;
  writerow [Text "Tag Counts"] ;;;
  write_tag_block tag_counts ;;;
  writerow [] ;;;
  writerow [Text "Port/Protocol Combination Counts"] ;;;
  writerow [Text "Port"; Text "Protocol"; Text "Count"] ;;;
  for_each (Dict.items port_protocol_counts) (fun x =>
    writerow [Text (fst (fst x)); Text (snd (fst x)); Int (snd x)]) ;;;
  logging INFO "Results successfully saved.".

(** The log and the rows written to the sink. *)
Definition save_results (sink : string -> file unit)
    (tag_counts : tag_counts_t) (port_protocol_counts : port_protocol_counts_t)
    (output_filename : string) : list log_record * list row :=
  fst (try_except
         (save_body sink tag_counts port_protocol_counts output_filename)
         (fun e => logging ERROR ("Failed to save results to "
                                  ++ output_filename ++ ": " ++ str_exn e))
         ([], [])).

(** The rows [save_results] writes between the caption
    ["Tag Counts"] and the blank row. *)
Definition tag_block (tag_counts : tag_counts_t) : list row :=
  snd (fst (write_tag_block tag_counts ([], []))).

(** ** [main] *)

(** What [configparser] gives [main]: [config.read] may raise, and so
    may each [config.get]; the handler of line 143 uses only the text
    of the exception. *)
Record config := {
  read_error : option string;
  get_option : string -> string -> string + string
}.

(** Lines 139 to 142: the three file names, or the text of the first
    exception. *)
Definition read_configuration (cfg : config)
    : (string * string * string) + string :=
  match read_error cfg with
  | Some e => inr e
  | None =>
      match get_option cfg "Files" "lookup_table_file" with
      | inr e => inr e
      | inl lookup_table_file =>
          match get_option cfg "Files" "log_file_prefix" with
          | inr e => inr e
          | inl log_file_prefix =>
              match get_option cfg "Files" "output_file_prefix" with
              | inr e => inr e
              | inl output_file_prefix =>
                  inl (lookup_table_file, log_file_prefix, output_file_prefix)
              end
          end
      end
  end.

(** [if lookup_table:], the truth value of a dictionary. *)
Definition truthy {K V} (d : Dict.dict K V) : bool :=
  match d with [] => false | _ => true end.

(** [main], on the configuration, the date of the run
    ([datetime.now().strftime("%Y-%m-%d")]) and the files: the log, the
    rows written to the output file, and whether the call returned or
    let an exception through. *)
Definition main (cfg : config) (date_str : string)
    (tables : string -> file (list (list string)))
    (logs : string -> file (list string))
    (sink : string -> file unit)
    : list log_record * list row * result unit :=
  match read_configuration cfg with
  | inr e => ([(ERROR, "Failed to read configuration: " ++ e)], [], Ok tt)
  | inl (lookup_table_file, log_file_prefix, output_file_prefix) =>
      let log_file := log_file_prefix ++ "_" ++ date_str ++ ".log" in
      let output_file := output_file_prefix ++ "_" ++ date_str ++ ".txt" in
      match load_lookup_table tables lookup_table_file with
      | (log1, Raise e) => (log1, [], Raise e)
      | (log1, Ok lookup_table) =>
          if truthy lookup_table
          then
            match parse_flow_logs logs log_file lookup_table with
            | (log2, Ok (tag_counts, port_protocol_counts)) =>
                let '(log3, written) :=
                  save_results sink tag_counts port_protocol_counts
                    output_file in
                ((log1 ++ log2 ++ log3)%list, written, Ok tt)
            | (log2, Raise (ValueError msg)) =>
                ((log1 ++ log2
                  ++ [(ERROR, ("Processing halted due to error: " ++ msg)%string)])%list,
                 [], Ok tt)
            | (log2, Raise e) => ((log1 ++ log2)%list, [], Raise e)
            end
          else (log1, [], Ok tt)
      end
  end.

(** ** [generate_log_file] of [generate_data.py]

    One pass of the loop of lines 13 to 29 draws from [random] and
    writes one line. *)

(** [str(n)] of a non-negative [int]. *)
Definition str_N (n : N) : string := NilEmpty.string_of_uint (N.to_uint n).

(** What one pass draws, in the order of the calls. *)
Record log_draws := {
  interface_letter1 : ascii;
  interface_digit1 : N;
  interface_letter2 : ascii;
  interface_digit2 : N;
  source_ip3 : N;
  source_ip4 : N;
  destination_ip4 : N;
  dest_port : N;
  src_port : N;
  protocol_id : string;
  packet_count : N;
  byte_count : N;
  duration : N;
  connection_action : string
}.

(** The ranges [random.choice] and [random.randint] are given. *)
Definition valid_draws (d : log_draws) : Prop :=
  In (interface_letter1 d) (list_ascii_of_string "abcdef") /\
  (1 <= interface_digit1 d <= 9)%N /\
  In (interface_letter2 d) (list_ascii_of_string "abcdef") /\
  (1 <= interface_digit2 d <= 9)%N /\
  (0 <= source_ip3 d <= 255)%N /\
  (0 <= source_ip4 d <= 255)%N /\
  (1 <= destination_ip4 d <= 255)%N /\
  In (dest_port d) [22; 23; 25; 80; 110; 143; 443; 993; 3389; 49153]%N /\
  (1 <= src_port d <= 65535)%N /\
  In (protocol_id d) ["6"; "17"] /\
  (1 <= packet_count d <= 100)%N /\
  (100 <= byte_count d <= 100000)%N /\
  (1 <= duration d <= 1000)%N /\
  In (connection_action d) ["ACCEPT"; "REJECT"].

(** Lines 14 to 28: the line written. *)
Definition log_entry (d : log_draws) : string :=
  let log_version := 2%N in
  let user_id := "123456789012" in
  let interface_id :=
    "eni-" ++ String (interface_letter1 d) "" ++ str_N (interface_digit1 d)
    ++ String (interface_letter2 d) "" ++ str_N (interface_digit2 d) in
  let source_ip := "10.0." ++ str_N (source_ip3 d) ++ "." ++ str_N (source_ip4 d) in
  let destination_ip := "198.51.100." ++ str_N (destination_ip4 d) in
  let start_time := 1620140761%N in
  let end_time := (start_time + duration d)%N in
  let log_status := "OK" in
  str_N log_version ++ " " ++ user_id ++ " " ++ interface_id ++ " "
  ++ source_ip ++ " " ++ destination_ip ++ " " ++ str_N (dest_port d) ++ " "
  ++ str_N (src_port d) ++ " " ++ protocol_id d ++ " "
  ++ str_N (packet_count d) ++ " " ++ str_N (byte_count d) ++ " "
  ++ str_N start_time ++ " " ++ str_N end_time ++ " "
  ++ connection_action d ++ " " ++ log_status
  ++ String "010"%char EmptyString.

(** * Vocabulary of the properties *)

(** The three ways lines 66 to 82 can go, read off the fields. *)
Inductive line_kind :=
| Counted (dstport protocol : string)
| BadVersion (version : string)
| TooShort.

Definition kind_of (line : string) : line_kind :=
  let fields := Str.split line in
  match nth_error fields 0 with
  | None => TooShort
  | Some version =>
      if (version =? "2")%string
      then match nth_error fields 5, nth_error fields 7 with
           | Some dstport, Some protocol_code =>
               Counted dstport (resolve protocol_code)
           | _, _ => TooShort
           end
      else BadVersion version
  end.

(** A line of the documented shape as far as the code looks: version
    token ["2"] and at least eight fields. *)
Definition well_formed (line : string) : bool :=
  let fields := Str.split line in
  match nth_error fields 0 with
  | Some version => (version =? "2")%string && (8 <=? List.length fields)%nat
  | None => false
  end.

(** The tag line 80 gives a key. *)
Definition tag_of (lookup_table : lookup) (key : string * string) : string :=
  Dict.get_default lookup_table key "Untagged".

(** Lines 81 and 82. *)
Definition count_record (lookup_table : lookup) (c : counts)
    (key : string * string) : counts :=
  (Dict.incr (fst c) (tag_of lookup_table key), Dict.incr (snd c) key).

Definition version_log (version : string) : log_record :=
  (ERROR, "Unsupported version " ++ version
          ++ " in log entry. Expected version 2.").

Definition version_error (version : string) : exn :=
  ValueError ("Unsupported log version " ++ version
              ++ " encountered. Stopping processing.").

Definition index_error : exn := IndexError "list index out of range".

Definition processing_log (log_filename : string) (e : exn) : log_record :=
  (ERROR, "Error while processing flow logs from "
          ++ log_filename ++ ": " ++ str_exn e).

(** The loop of line 65 as a scan: the counts when it stops, and the
    kind of the line that stopped it, if one did. *)
Fixpoint scan (lookup_table : lookup) (lines : list string) (c : counts)
    : counts * option line_kind :=
  match lines with
  | [] => (c, None)
  | line :: lines' =>
      match kind_of line with
      | Counted dstport protocol =>
          scan lookup_table lines' (count_record lookup_table c (dstport, protocol))
      | k => (c, Some k)
      end
  end.

Definition stops (k : line_kind) : Prop :=
  match k with Counted _ _ => False | _ => True end.

(** The newline that ends a line read from a file. *)
Definition nl : string := String "010"%char EmptyString.

(** Example inputs: a flow log of three records (a tagged one, one of
    an unmapped protocol code, one of an unmapped port), the same log
    cut short by a line of version 3, by a line of three fields and by
    a blank line, and a lookup table. *)

Definition line_email : string :=
  "2 123456789012 eni-a1b2 10.0.1.201 198.51.100.2 25 49153 6 25 20000 1620140761 1620140821 ACCEPT OK" ++ nl.
Definition line_unknown : string :=
  "2 123456789012 eni-a1b2 10.0.1.201 198.51.100.2 80 49154 99 25 20000 1620140761 1620140821 ACCEPT OK" ++ nl.
Definition line_port : string :=
  "2 123456789012 eni-a1b2 10.0.1.201 198.51.100.2 81 49155 17 25 20000 1620140761 1620140821 REJECT OK" ++ nl.
Definition line_v3 : string :=
  "3 123456789012 eni-a1b2 10.0.1.201 198.51.100.2 25 49153 6 25 20000 1620140761 1620140821 ACCEPT OK" ++ nl.
Definition line_short : string := "2 123456789012 eni-a1b2" ++ nl.
Definition line_eight : string := "2 a b c d 25 e 6" ++ nl.
Definition line_fifteen : string :=
  "2 x x x x 25 x 6 x x x x x x extra" ++ nl.

Definition fields_sixteen : list string :=
  ["2"; "a"; "b"; "c"; "d"; "443"; "e"; "17";
   "f"; "g"; "h"; "i"; "j"; "k"; "l"; "m"].

Definition example_logs (filename : string) : file (list string) :=
  if (filename =? "flow.log")%string
  then Readable [line_email; line_unknown; line_port]
  else if (filename =? "v3.log")%string
  then Readable [line_email; line_unknown; line_v3; line_port]
  else if (filename =? "short.log")%string
  then Readable [line_email; line_short; line_port]
  else if (filename =? "blank.log")%string
  then Readable [line_email; nl; line_port]
  else if (filename =? "locked.log")%string
  then Unreadable "[Errno 13] Permission denied: 'locked.log'"
  else Missing.

Definition example_table : lookup :=
  [ (("25", "tcp"), "email"); (("443", "tcp"), "Untagged") ].

(** Between [d] and [d'] the entry of [k] went up by one and no other
    entry changed; an absent entry reads as 0, as in a
    [defaultdict(int)]. *)
Definition incremented_at {K} `{Key K} (d d' : Dict.dict K Z) (k : K) : Prop :=
  Dict.get_default d' k 0 = Dict.get_default d k 0 + 1 /\
  forall k', k' <> k -> Dict.get d' k' = Dict.get d k'.

(** The lines of the flow log, none when it cannot be opened. *)
Definition lines_of (fs : string -> file (list string)) (filename : string)
    : list string :=
  match fs filename with Readable lines => lines | _ => [] end.

(** A data row of three fields. *)
Definition row3 (x : string * string * string) : list string :=
  let '(dstport, protocol, tag) := x in [dstport; protocol; tag].

(** The tag of the last data row whose port and lowercased protocol
    are [key]. *)
Fixpoint last_tag (data : list (string * string * string))
    (key : string * string) : option string :=
  match data with
  | [] => None
  | (dstport, protocol, tag) :: data' =>
      match last_tag data' key with
      | Some tag' => Some tag'
      | None =>
          if key_eqb (dstport, Str.lower protocol) key then Some tag else None
      end
  end.

(** The loop of line 38 as a scan: the table when it stops, and the
    row that stopped it, if one did. *)
Fixpoint load_scan (rows : list (list string)) (lookup_table : lookup)
    : lookup * option (list string) :=
  match rows with
  | [] => (lookup_table, None)
  | [dstport; protocol; tag] :: rows' =>
      load_scan rows' (Dict.set lookup_table (dstport, Str.lower protocol) tag)
  | row :: _ => (lookup_table, Some row)
  end.

Definition loading_log (filename : string) (e : exn) : log_record :=
  (ERROR, "Error occurred while loading lookup table from "
          ++ filename ++ ": " ++ str_exn e).

Definition example_tables (filename : string) : file (list (list string)) :=
  if (filename =? "lookup.csv")%string
  then Readable [ ["destination_port"; "protocol"; "tag"];
                  ["80"; "tcp"; "web"] ]
  else if (filename =? "mixed.csv")%string
  then Readable [ ["destination_port"; "protocol"; "tag"];
                  ["80"; "tcp"; "web"];
                  ["25"; "TCP"; "mail"];
                  ["80"; "TCP"; "www"] ]
  else if (filename =? "ragged.csv")%string
  then Readable [ ["destination_port"; "protocol"; "tag"];
                  ["80"; "tcp"; "web"];
                  ["81"; "tcp"];
                  ["82"; "tcp"; "late"] ]
  else Missing.

Definition tag_row (x : string * Z) : row := [Text (fst x); Int (snd x)].

Definition not_untagged (x : string * Z) : bool :=
  negb (fst x =? "Untagged")%string.

Definition has_count (n : Z) (x : string * Z) : bool := snd x =? n.

(** [x] comes before [y] in descending order of count. *)
Definition count_ge (x y : string * Z) : Prop := snd y <= snd x.

Definition example_tag_counts : tag_counts_t :=
  [("ssh", 3); ("Untagged", 9); ("web", 5); ("dns", 5)].

(** The key under which a line is counted, when it is. *)
Definition line_key (line : string) : option (string * string) :=
  match kind_of line with
  | Counted dstport protocol => Some (dstport, protocol)
  | _ => None
  end.

(** A counted line whose key has no entry in the lookup table. *)
Definition unmatched (lookup_table : lookup) (line : string) : bool :=
  match line_key line with
  | Some key =>
      match Dict.get lookup_table key with None => true | Some _ => false end
  | None => false
  end.

(** A counted line whose key the lookup table maps to ["Untagged"]. *)
Definition matched_untagged (lookup_table : lookup) (line : string) : bool :=
  match line_key line with
  | Some key =>
      match Dict.get lookup_table key with
      | Some tag => (tag =? "Untagged")%string
      | None => false
      end
  | None => false
  end.

(** A counted line that line 80 gives the tag [tag]. *)
Definition tagged (lookup_table : lookup) (tag : string) (line : string) : bool :=
  match line_key line with
  | Some key => (tag_of lookup_table key =? tag)%string
  | None => false
  end.

(** A row whose first cell is the text ["Untagged"]. *)
Definition untagged_row (r : row) : bool :=
  match r with
  | Text s :: _ => (s =? "Untagged")%string
  | _ => false
  end.

Definition line_https : string :=
  "2 123456789012 eni-a1b2 10.0.1.201 198.51.100.2 443 49156 6 25 20000 1620140761 1620140821 ACCEPT OK" ++ nl.

Definition untagged_logs (filename : string) : file (list string) :=
  Readable [line_email; line_https; line_port].

(** [seen] with [k] added at the end unless it is there. *)
Definition remember {K} `{Key K} (seen : list K) (k : K) : list K :=
  if existsb (fun k' => key_eqb k' k) seen then seen else (seen ++ [k])%list.

(** The keys of [ks] in the order of their first occurrence. *)
Definition first_seen {K} `{Key K} (ks : list K) : list K :=
  fold_left remember ks [].

(** The source opens and its first data row has three fields. *)
Definition first_row_loads (fs : string -> file (list (list string)))
    (filename : string) : bool :=
  match fs filename with
  | Readable (_ :: [_; _; _] :: _) => true
  | _ => false
  end.

(** A row with its protocol field in lowercase. *)
Definition lower_protocol (row : list string) : list string :=
  match row with
  | [dstport; protocol; tag] => [dstport; Str.lower protocol; tag]
  | _ => row
  end.

Definition upper_tables (filename : string) : file (list (list string)) :=
  Readable [ ["destination_port"; "protocol"; "tag"];
             ["80"; "TCP"; "web"];
             ["53"; "Udp"; "dns"];
             ["80"; "tcp"; "www"];
             ["81"] ].

Definition lower_tables (filename : string) : file (list (list string)) :=
  Readable [ ["destination_port"; "protocol"; "tag"];
             ["80"; "tcp"; "web"];
             ["53"; "udp"; "dns"];
             ["80"; "tcp"; "www"];
             ["81"] ].

(** What every state of the table satisfies: distinct keys, protocols
    in lowercase. *)
Definition table_ok (t : lookup) : Prop :=
  NoDup (Dict.keys t) /\
  Forall (fun key => Str.lower (snd key) = snd key) (Dict.keys t).

(** The keys of the counted lines of [lines], in the order of the
    lines. *)
Definition counted_keys (lines : list string) : list (string * string) :=
  flat_map (fun line =>
              match line_key line with Some key => [key] | None => [] end)
           lines.

(** How many times [k] occurs in [ks]. *)
Definition occurrences {K} `{Key K} (k : K) (ks : list K) : nat :=
  List.length (filter (fun k' => key_eqb k' k) ks).

(** The entry of a counter that was incremented [n] times: none when
    it never was. *)
Definition entry (n : nat) : option Z :=
  match n with O => None | S _ => Some (Z.of_nat n) end.

(** The entry [o] after [n] more increments. *)
Definition bump (o : option Z) (n : nat) : option Z :=
  match n with
  | O => o
  | S _ => Some (match o with Some v => v | None => 0 end + Z.of_nat n)
  end.

Definition first_half (filename : string) : file (list string) :=
  Readable [line_email; line_unknown].

Definition second_half (filename : string) : file (list string) :=
  Readable [line_unknown; line_port; line_email].

Definition both_halves (filename : string) : file (list string) :=
  Readable [line_email; line_unknown; line_unknown; line_port; line_email].

Definition cut_logs (filename : string) : file (list string) :=
  Readable [line_email; line_unknown; line_v3].

(** A row of the port/protocol block, lines 125 and 126. *)
Definition port_protocol_row (x : string * string * Z) : row :=
  [Text (fst (fst x)); Text (snd (fst x)); Int (snd x)].

(** The count a row of the report carries in its last cell, 0 for a
    row that carries none. *)
Definition row_count (r : row) : Z :=
  match last r (Text "") with Int n => n | Text _ => 0 end.

Definition sum_counts (rows : list row) : Z :=
  fold_right Z.add 0 (map row_count rows).

Definition open_sink (filename : string) : file unit := Readable tt.

(** Example inputs of [main]: a configuration, the date of a run and
    the files of that date. *)
Definition example_config : config :=
  {| read_error := None;
     get_option := fun section option =>
       if (section =? "Files")%string
       then if (option =? "lookup_table_file")%string then inl "lookup.csv"
            else if (option =? "log_file_prefix")%string then inl "flow"
            else if (option =? "output_file_prefix")%string then inl "report"
            else inr ("No option '" ++ option ++ "' in section: 'Files'")
       else inr ("No section: '" ++ section ++ "'") |}.

Definition broken_config : config :=
  {| read_error := None;
     get_option := fun section option => inr ("No section: '" ++ section ++ "'") |}.

Definition example_date : string := "2024-05-04".

Definition dated_logs (lines : list string) (filename : string)
    : file (list string) :=
  if (filename =? "flow_2024-05-04.log")%string then Readable lines else Missing.

Definition header_only (filename : string) : file (list (list string)) :=
  Readable [ ["destination_port"; "protocol"; "tag"] ].

(** The fields of the line [generate_log_file] writes for [d]. *)
Definition log_fields (d : log_draws) : list string :=
  [ str_N 2; "123456789012";
    "eni-" ++ String (interface_letter1 d) "" ++ str_N (interface_digit1 d)
    ++ String (interface_letter2 d) "" ++ str_N (interface_digit2 d);
    "10.0." ++ str_N (source_ip3 d) ++ "." ++ str_N (source_ip4 d);
    "198.51.100." ++ str_N (destination_ip4 d);
    str_N (dest_port d); str_N (src_port d); protocol_id d;
    str_N (packet_count d); str_N (byte_count d);
    str_N 1620140761; str_N (1620140761 + duration d);
    connection_action d; "OK" ].

Definition example_draws : log_draws :=
  {| interface_letter1 := "c"; interface_digit1 := 7;
     interface_letter2 := "f"; interface_digit2 := 2;
     source_ip3 := 0; source_ip4 := 255; destination_ip4 := 17;
     dest_port := 443; src_port := 50211; protocol_id := "17";
     packet_count := 12; byte_count := 4096; duration := 1000;
     connection_action := "REJECT" |}.

(** The protocol name of a drawn protocol identifier. *)
Definition drawn_protocol (d : log_draws) : string :=
  if (protocol_id d =? "6")%string then "tcp" else "udp".

(** The key line 82 counts a line under: its field 5 and the protocol
    name of its field 7. *)
Definition field_key (line : string) : string * string :=
  (nth 5 (Str.split line) "", resolve (nth 7 (Str.split line) "")).

(** A line whose first field is ["2"] and that has at least eight
    fields. *)
Definition record_shaped (line : string) : Prop :=
  nth_error (Str.split line) 0 = Some "2" /\
  (8 <= List.length (Str.split line))%nat.

(** Two lines with the same fields 0, 5 and 7. *)
Definition same_fields_0_5_7 (line1 line2 : string) : Prop :=
  nth_error (Str.split line1) 0 = nth_error (Str.split line2) 0 /\
  nth_error (Str.split line1) 5 = nth_error (Str.split line2) 5 /\
  nth_error (Str.split line1) 7 = nth_error (Str.split line2) 7.

Definition odd_lengths (filename : string) : file (list string) :=
  Readable [line_eight; line_fifteen; line_email].

Definition odd_lengths_trimmed (filename : string) : file (list string) :=
  Readable [line_eight; line_email; line_fifteen].

(** * Properties *)

(** ** Keys *)

Lemma pair_eqb_eq (a b : string * string) : pair_eqb a b = true <-> a = b.
Proof.
  destruct a as [a1 a2], b as [b1 b2]; unfold pair_eqb; simpl.
  rewrite andb_true_iff, !String.eqb_eq.
  split; [intros [-> ->]; reflexivity | intros E; inversion E; auto].
Qed.

#[global] Instance string_KeyLaws : KeyLaws string.
Proof. constructor. exact String.eqb_eq. Qed.

#[global] Instance pair_KeyLaws : KeyLaws (string * string).
Proof. constructor. exact pair_eqb_eq. Qed.

(** ** Dictionaries *)

Section DictFacts.
Context {K : Type} `{KeyLaws K}.

Lemma key_eqb_refl (k : K) : key_eqb k k = true.
Proof. now apply key_eqb_eq. Qed.

Lemma key_eqb_neq (a b : K) : a <> b -> key_eqb a b = false.
Proof.
  intros N. destruct (key_eqb a b) eqn:E; [|reflexivity].
  apply key_eqb_eq in E. contradiction.
Qed.

Lemma key_eqb_sym (a b : K) : key_eqb a b = key_eqb b a.
Proof.
  destruct (key_eqb b a) eqn:E.
  - apply key_eqb_eq in E. subst. apply key_eqb_refl.
  - destruct (key_eqb a b) eqn:E'; [|reflexivity].
    apply key_eqb_eq in E'. subst. now rewrite key_eqb_refl in E.
Qed.

Lemma get_set_same {V} (d : Dict.dict K V) k v :
  Dict.get (Dict.set d k v) k = Some v.
Proof.
  induction d as [|[k' v'] d IH]; simpl.
  - now rewrite key_eqb_refl.
  - destruct (key_eqb k' k) eqn:E; simpl; rewrite E; auto.
Qed.

Lemma get_set_other {V} (d : Dict.dict K V) k v k' :
  k' <> k -> Dict.get (Dict.set d k v) k' = Dict.get d k'.
Proof.
  intros N. induction d as [|[k0 v0] d IH]; simpl.
  - rewrite key_eqb_neq; auto.
  - destruct (key_eqb k0 k) eqn:E; simpl.
    + apply key_eqb_eq in E. subst k0.
      rewrite key_eqb_neq; [reflexivity | congruence].
    + now rewrite IH.
Qed.

Lemma get_default_incr_same (d : Dict.dict K Z) k :
  Dict.get_default (Dict.incr d k) k 0 = Dict.get_default d k 0 + 1.
Proof.
  unfold Dict.incr. unfold Dict.get_default at 1. now rewrite get_set_same.
Qed.

Lemma get_incr_other (d : Dict.dict K Z) k k' :
  k' <> k -> Dict.get (Dict.incr d k) k' = Dict.get d k'.
Proof. intros N. unfold Dict.incr. now apply get_set_other. Qed.

Lemma get_default_incr_le (d : Dict.dict K Z) k k' :
  Dict.get_default d k' 0 <= Dict.get_default (Dict.incr d k) k' 0.
Proof.
  destruct (key_eqb k' k) eqn:E.
  - apply key_eqb_eq in E. subst. rewrite get_default_incr_same. lia.
  - unfold Dict.get_default. rewrite get_incr_other; [lia|].
    intros ->. now rewrite key_eqb_refl in E.
Qed.

Lemma total_set (d : Dict.dict K Z) k v :
  Dict.total (Dict.set d k v) = Dict.total d - Dict.get_default d k 0 + v.
Proof.
  unfold Dict.total, Dict.values, Dict.get_default.
  induction d as [|[k' v'] d IH]; simpl.
  - lia.
  - destruct (key_eqb k' k) eqn:E; simpl; [lia|]. rewrite IH. lia.
Qed.

Lemma total_incr (d : Dict.dict K Z) k :
  Dict.total (Dict.incr d k) = Dict.total d + 1.
Proof. unfold Dict.incr. rewrite total_set. lia. Qed.

Lemma get_none_not_in {V} (d : Dict.dict K V) k :
  Dict.get d k = None <-> ~ In k (Dict.keys d).
Proof.
  induction d as [|[k' v'] d IH]; simpl.
  - tauto.
  - destruct (key_eqb k' k) eqn:E.
    + apply key_eqb_eq in E. subst. split; [discriminate | tauto].
    + rewrite IH. split; [intros N [->|I]; auto | tauto].
      now rewrite key_eqb_refl in E.
Qed.

Lemma get_some_in {V} (d : Dict.dict K V) k v :
  Dict.get d k = Some v -> In (k, v) d.
Proof.
  induction d as [|[k' v'] d IH]; simpl; [discriminate|].
  destruct (key_eqb k' k) eqn:E.
  - apply key_eqb_eq in E. intros [= ->]. subst. now left.
  - auto.
Qed.
End DictFacts.

(** ** Splitting a line *)

Lemma append_nil_r (s : string) : s ++ "" = s.
Proof. induction s as [|c s IH]; cbn; [reflexivity | now rewrite IH]. Qed.

Lemma append_assoc (s t u : string) : (s ++ t) ++ u = s ++ (t ++ u).
Proof. induction s as [|c s IH]; cbn; [reflexivity | now rewrite IH]. Qed.

Lemma is_empty_append cur t :
  Str.is_empty t = false -> Str.is_empty (cur ++ t) = false.
Proof. destruct cur; [auto | reflexivity]. Qed.

(** Reading a run of characters that are not whitespace extends the
    field being read. *)
Lemma split_from_token cur t s :
  Str.no_space t = true ->
  Str.split_from cur (t ++ s) = Str.split_from (cur ++ t) s.
Proof.
  revert cur. induction t as [|c t IH]; intros cur N.
  - now rewrite append_nil_r.
  - cbn [Str.no_space] in N. apply andb_true_iff in N. destruct N as [C N].
    apply negb_true_iff in C. cbn [append Str.split_from]. rewrite C.
    rewrite (IH _ N), append_assoc. reflexivity.
Qed.

(** [split] undoes [join] on tokens, with or without the newline that
    ends a line of a file. *)
Lemma split_join fields :
  Forall (fun f => Str.is_token f = true) fields ->
  Str.split (Str.join fields ++ nl) = fields.
Proof.
  unfold Str.split. induction 1 as [|f fields T F IH]; [reflexivity|].
  apply andb_true_iff in T. destruct T as [E N]. apply negb_true_iff in E.
  destruct fields as [|g fields].
  - cbn [Str.join]. rewrite (split_from_token _ _ _ N). cbn [append].
    cbn [nl Str.split_from]. change (Str.isspace "010") with true.
    cbn iota. now rewrite E.
  - change (Str.join (f :: g :: fields))
      with (f ++ " " ++ Str.join (g :: fields)).
    rewrite !append_assoc, (split_from_token _ _ _ N). cbn [append].
    cbn [Str.split_from]. change (Str.isspace " ") with true.
    cbn iota. rewrite E, IH. reflexivity.
Qed.

(** ** What [parse_flow_logs] does with one line *)

Lemma parse_line_spec lookup_table line log c :
  parse_line lookup_table line (log, c) =
  match kind_of line with
  | Counted dstport protocol =>
      ((log, count_record lookup_table c (dstport, protocol)), Ok tt)
  | BadVersion version =>
      (((log ++ [version_log version])%list, c), Raise (version_error version))
  | TooShort => ((log, c), Raise index_error)
  end.
Proof.
  unfold parse_line, kind_of, index, bind.
  destruct (nth_error (Str.split line) 0) as [version|]; [|reflexivity].
  cbn [ret]. destruct (version =? "2")%string; cbn [negb].
  - destruct (nth_error (Str.split line) 5) as [dstport|]; [|reflexivity].
    cbn [ret].
    destruct (nth_error (Str.split line) 7) as [code|]; reflexivity.
  - reflexivity.
Qed.

Lemma well_formed_kind line :
  well_formed line = true <->
  exists dstport protocol, kind_of line = Counted dstport protocol.
Proof.
  unfold well_formed, kind_of.
  destruct (nth_error (Str.split line) 0) as [version|] eqn:E0.
  2:{ split; [discriminate | intros (? & ? & ?); discriminate]. }
  destruct (version =? "2")%string; cbn [andb].
  2:{ split; [discriminate | intros (? & ? & ?); discriminate]. }
  rewrite Nat.leb_le. split.
  - intros L.
    destruct (nth_error (Str.split line) 5) as [p|] eqn:E5.
    2:{ apply nth_error_None in E5. lia. }
    destruct (nth_error (Str.split line) 7) as [c|] eqn:E7.
    2:{ apply nth_error_None in E7. lia. }
    eauto.
  - intros (p & pr & E).
    destruct (nth_error (Str.split line) 5) as [p'|] eqn:E5; [|discriminate].
    destruct (nth_error (Str.split line) 7) as [c|] eqn:E7; [|discriminate].
    assert (7 < List.length (Str.split line))%nat; [|lia].
    apply nth_error_Some. congruence.
Qed.

Lemma for_each_parse_line lookup_table lines log c :
  for_each lines (parse_line lookup_table) (log, c) =
  match scan lookup_table lines c with
  | (c', None) => ((log, c'), Ok tt)
  | (c', Some (BadVersion version)) =>
      (((log ++ [version_log version])%list, c'), Raise (version_error version))
  | (c', Some _) => ((log, c'), Raise index_error)
  end.
Proof.
  revert c. induction lines as [|line lines IH]; intros c; [reflexivity|].
  cbn [for_each scan]. unfold bind at 1. rewrite parse_line_spec.
  destruct (kind_of line); [apply IH | reflexivity | reflexivity].
Qed.

(** [parse_flow_logs] in closed form. *)
Lemma parse_flow_logs_spec fs log_filename lookup_table :
  parse_flow_logs fs log_filename lookup_table =
  match fs log_filename with
  | Missing =>
      ([(ERROR, "Could not find the file: " ++ log_filename)],
       Ok (Dict.empty, Dict.empty))
  | Unreadable msg =>
      ([processing_log log_filename (OSError msg)], Raise (OSError msg))
  | Readable lines =>
      match scan lookup_table lines (Dict.empty, Dict.empty) with
      | (c, None) => ([(INFO, "Flow logs processed successfully.")], Ok c)
      | (_, Some (BadVersion version)) =>
          ([version_log version;
            processing_log log_filename (version_error version)],
           Raise (version_error version))
      | (_, Some _) =>
          ([processing_log log_filename index_error], Raise index_error)
      end
  end.
Proof.
  unfold parse_flow_logs, parse_body, try_except, bind, open.
  destruct (fs log_filename) as [|msg|lines]; try reflexivity.
  cbn [ret]. rewrite for_each_parse_line.
  destruct (scan lookup_table lines (Dict.empty, Dict.empty)) as [c [[]|]];
    reflexivity.
Qed.

(** ** The scan *)

Lemma scan_app lookup_table pre rest c :
  scan lookup_table (pre ++ rest) c =
  match scan lookup_table pre c with
  | (c', None) => scan lookup_table rest c'
  | stopped => stopped
  end.
Proof.
  revert c. induction pre as [|line pre IH]; intros c; [reflexivity|].
  cbn [app scan]. destruct (kind_of line); auto.
Qed.

Lemma scan_stops lookup_table lines c c' k :
  scan lookup_table lines c = (c', Some k) -> stops k.
Proof.
  revert c. induction lines as [|line lines IH]; intros c; cbn [scan].
  - discriminate.
  - destruct (kind_of line) eqn:E; eauto; intros [= <- <-]; exact I.
Qed.

Lemma scan_well_formed lookup_table lines c :
  Forall (fun l => well_formed l = true) lines ->
  exists c', scan lookup_table lines c = (c', None).
Proof.
  intros F. revert c. induction F as [|line lines W F IH]; intros c.
  - now exists c.
  - apply well_formed_kind in W. destruct W as (p & pr & E).
    cbn [scan]. rewrite E. apply IH.
Qed.

Lemma scan_completes lookup_table lines c c' :
  scan lookup_table lines c = (c', None) ->
  Forall (fun l => well_formed l = true) lines /\
  Dict.total (fst c') = Dict.total (fst c) + Z.of_nat (List.length lines) /\
  Dict.total (snd c') = Dict.total (snd c) + Z.of_nat (List.length lines).
Proof.
  revert c. induction lines as [|line lines IH]; intros c; cbn [scan].
  - intros [= ->]. cbn [List.length]. repeat split; [constructor | lia | lia].
  - destruct (kind_of line) as [p pr| |] eqn:E; try discriminate.
    intros S. apply IH in S. destruct S as (F & T1 & T2).
    cbn [count_record fst snd] in T1, T2.
    rewrite total_incr in T1. rewrite total_incr in T2.
    cbn [List.length]. repeat split; try lia.
    constructor; [|exact F]. apply well_formed_kind. eauto.
Qed.

(** A line that is not counted stops the scan, at that line or before. *)
Lemma scan_stopped lookup_table pre line post c :
  stops (kind_of line) ->
  exists c' k, scan lookup_table (pre ++ line :: post) c = (c', Some k).
Proof.
  intros N. rewrite scan_app.
  destruct (scan lookup_table pre c) as [c' [k|]]; [eauto|].
  cbn [scan]. destruct (kind_of line); [contradiction | eauto | eauto].
Qed.

Lemma kind_of_bad_version line version :
  nth_error (Str.split line) 0 = Some version -> version <> "2" ->
  kind_of line = BadVersion version.
Proof.
  intros E N. unfold kind_of. rewrite E.
  destruct (version =? "2")%string eqn:V; [|reflexivity].
  apply String.eqb_eq in V. contradiction.
Qed.

Lemma kind_of_short line :
  (List.length (Str.split line) < 8)%nat -> stops (kind_of line).
Proof.
  intros L. destruct (kind_of line) as [p pr| |] eqn:E; try exact I.
  assert (W : well_formed line = true) by (apply well_formed_kind; eauto).
  unfold well_formed in W.
  destruct (nth_error (Str.split line) 0); [|discriminate].
  apply andb_true_iff in W. destruct W as [_ W]. apply Nat.leb_le in W. lia.
Qed.

Lemma kind_of_well_formed line :
  nth_error (Str.split line) 0 = Some "2" ->
  (8 <= List.length (Str.split line))%nat ->
  exists dstport protocol_code,
    nth_error (Str.split line) 5 = Some dstport /\
    nth_error (Str.split line) 7 = Some protocol_code /\
    kind_of line = Counted dstport (resolve protocol_code).
Proof.
  intros E0 L. unfold kind_of. rewrite E0, String.eqb_refl.
  destruct (nth_error (Str.split line) 5) as [p|] eqn:E5.
  2:{ apply nth_error_None in E5. lia. }
  destruct (nth_error (Str.split line) 7) as [code|] eqn:E7.
  2:{ apply nth_error_None in E7. lia. }
  exists p, code. repeat split; reflexivity.
Qed.

(** ** The parser's error paths *)

(** C1.  When some line of the flow log has a first field other than
    ["2"], [parse_flow_logs] raises and returns no aggregates, whatever
    the lookup table; when the lines before it are well formed,
    however many they are, what it raises is the [ValueError] of the
    unsupported version, logged twice on the way out. *)
Theorem unsupported_version_aborts
    fs log_filename lookup_table pre line post version :
  fs log_filename = Readable (pre ++ line :: post)%list ->
  nth_error (Str.split line) 0 = Some version ->
  version <> "2" ->
  (exists log e,
     parse_flow_logs fs log_filename lookup_table = (log, Raise e)) /\
  (Forall (fun l => well_formed l = true) pre ->
   parse_flow_logs fs log_filename lookup_table =
   ([version_log version;
     processing_log log_filename (version_error version)],
    Raise (version_error version))).
Proof.
  intros Hfs E N. pose proof (kind_of_bad_version _ _ E N) as Kd.
  rewrite parse_flow_logs_spec, Hfs. split.
  - destruct (scan_stopped lookup_table pre line post
                (Dict.empty, Dict.empty)) as (c' & k & Sc).
    { rewrite Kd. exact I. }
    rewrite Sc. destruct k; eauto.
  - intros F.
    destruct (scan_well_formed lookup_table pre (Dict.empty, Dict.empty) F)
      as (c' & Sc).
    rewrite scan_app, Sc. cbn [scan]. rewrite Kd. reflexivity.
Qed.

Lemma unsupported_version_aborts_witness :
  (exists log e,
     parse_flow_logs example_logs "v3.log" example_table = (log, Raise e)) /\
  parse_flow_logs example_logs "v3.log" example_table =
  ([version_log "3"; processing_log "v3.log" (version_error "3")],
   Raise (version_error "3")).
Proof.
  destruct (unsupported_version_aborts example_logs "v3.log" example_table
              [line_email; line_unknown] line_v3 [line_port] "3"
              eq_refl eq_refl ltac:(discriminate)) as [A B].
  split; [exact A | apply B; repeat constructor].
Defined.

(** C8.  When some line of the flow log splits into fewer than eight
    fields, [parse_flow_logs] raises and returns no aggregates: the
    exception is the [IndexError] of a field out of range or the
    [ValueError] of a wrong version; when the lines before it are well
    formed and its own first field is ["2"] or absent, it is the
    [IndexError], logged and raised again. *)
Theorem short_line_aborts fs log_filename lookup_table pre line post :
  fs log_filename = Readable (pre ++ line :: post)%list ->
  (List.length (Str.split line) < 8)%nat ->
  (exists log e,
     parse_flow_logs fs log_filename lookup_table = (log, Raise e) /\
     (e = index_error \/ exists version, e = version_error version)) /\
  (Forall (fun l => well_formed l = true) pre ->
   nth_error (Str.split line) 0 = Some "2" \/ Str.split line = [] ->
   parse_flow_logs fs log_filename lookup_table =
   ([processing_log log_filename index_error], Raise index_error)).
Proof.
  intros Hfs L. pose proof (kind_of_short _ L) as N.
  rewrite parse_flow_logs_spec, Hfs. split.
  - destruct (scan_stopped lookup_table pre line post
                (Dict.empty, Dict.empty) N) as (c' & k & Sc).
    rewrite Sc. destruct k; eauto 6.
  - intros F V.
    destruct (scan_well_formed lookup_table pre (Dict.empty, Dict.empty) F)
      as (c' & Sc).
    rewrite scan_app, Sc. cbn [scan].
    assert (K : kind_of line = TooShort).
    { destruct (kind_of line) as [| v |] eqn:E;
        [contradiction | exfalso | reflexivity].
      unfold kind_of in E. destruct V as [V | V]; rewrite V in E.
      - rewrite String.eqb_refl in E.
        destruct (nth_error (Str.split line) 5);
          [destruct (nth_error (Str.split line) 7)|]; discriminate.
      - discriminate. }
    rewrite K. reflexivity.
Qed.

Lemma short_line_aborts_witness :
  (exists log e,
     parse_flow_logs example_logs "short.log" example_table = (log, Raise e) /\
     (e = index_error \/ exists version, e = version_error version)) /\
  parse_flow_logs example_logs "short.log" example_table =
  ([processing_log "short.log" index_error], Raise index_error).
Proof.
  destruct (short_line_aborts example_logs "short.log" example_table
              [line_email] line_short [line_port] eq_refl
              ltac:(vm_compute; lia)) as [A B].
  split; [exact A | apply B; [repeat constructor | left; reflexivity]].
Defined.

(** C6, as the code has it.  When the flow log is not found,
    [parse_flow_logs] logs the error and returns normally, both
    aggregates empty; when it cannot be opened for another reason, the
    error is logged and raised again. *)
Theorem missing_log_returns_empty fs log_filename lookup_table :
  (fs log_filename = Missing ->
   parse_flow_logs fs log_filename lookup_table =
   ([(ERROR, "Could not find the file: " ++ log_filename)],
    Ok (Dict.empty, Dict.empty))) /\
  (forall msg, fs log_filename = Unreadable msg ->
   parse_flow_logs fs log_filename lookup_table =
   ([processing_log log_filename (OSError msg)], Raise (OSError msg))).
Proof.
  split; [intros E | intros msg E];
    rewrite parse_flow_logs_spec, E; reflexivity.
Qed.

Lemma missing_log_returns_empty_witness :
  parse_flow_logs example_logs "absent.log" example_table =
  ([(ERROR, "Could not find the file: absent.log")],
   Ok (Dict.empty, Dict.empty)) /\
  parse_flow_logs example_logs "locked.log" example_table =
  ([processing_log "locked.log"
      (OSError "[Errno 13] Permission denied: 'locked.log'")],
   Raise (OSError "[Errno 13] Permission denied: 'locked.log'")).
Proof.
  split.
  - exact (proj1 (missing_log_returns_empty example_logs "absent.log"
                    example_table) eq_refl).
  - exact (proj2 (missing_log_returns_empty example_logs "locked.log"
                    example_table) _ eq_refl).
Defined.

(** C6, counterexample.  On a flow log that is not there the call
    returns two empty aggregates, and raises nothing. *)
Lemma missing_log_not_an_error :
  snd (parse_flow_logs example_logs "absent.log" example_table) =
    Ok (Dict.empty, Dict.empty) /\
  ~ (exists e,
       snd (parse_flow_logs example_logs "absent.log" example_table) = Raise e).
Proof.
  split; [reflexivity | intros [e E]; vm_compute in E; discriminate].
Qed.

(** ** Counting *)

Lemma incremented_at_incr {K} `{KeyLaws K} (d : Dict.dict K Z) k :
  exists! k0, incremented_at d (Dict.incr d k) k0.
Proof.
  exists k. split.
  - split; [apply get_default_incr_same | intros; now apply get_incr_other].
  - intros k2 [E2 _].
    destruct (key_eqb k2 k) eqn:E; [apply key_eqb_eq in E; auto|].
    assert (N : k2 <> k) by (intros ->; now rewrite key_eqb_refl in E).
    unfold Dict.get_default in E2. rewrite (get_incr_other d k k2 N) in E2.
    lia.
Qed.

Lemma scan_monotone lookup_table lines c c' r :
  scan lookup_table lines c = (c', r) ->
  (forall tag, Dict.get_default (fst c) tag 0 <= Dict.get_default (fst c') tag 0)
  /\ (forall key, Dict.get_default (snd c) key 0 <= Dict.get_default (snd c') key 0).
Proof.
  revert c. induction lines as [|line lines IH]; intros c; cbn [scan].
  - intros [= -> _]. split; intros; lia.
  - destruct (kind_of line) as [p pr|v|];
      try (intros [= -> _]; split; intros; lia).
    intros S. apply IH in S. destruct S as [S1 S2]. cbn [count_record fst snd] in *.
    split; intros k; [specialize (S1 k) | specialize (S2 k)];
      eapply Z.le_trans; try eassumption; apply get_default_incr_le.
Qed.

Lemma filter_all {A} (f : A -> bool) (l : list A) :
  Forall (fun x => f x = true) l -> filter f l = l.
Proof.
  induction 1 as [|x l E F IH]; cbn [filter]; [reflexivity|].
  now rewrite E, IH.
Qed.

(** C2.  A line that [parse_flow_logs] processes without raising
    increments exactly one entry of the tag counts and exactly one
    entry of the port/protocol counts, each by one, and changes no
    other entry; when the parse returns, each aggregate sums to the
    number of well-formed lines of the log, which are all its lines;
    and over any run of lines of the loop, completed or stopped by an
    exception, no entry of either aggregate decreases. *)
Theorem one_increment_per_record :
  (forall lookup_table line log c log' c',
     parse_line lookup_table line (log, c) = ((log', c'), Ok tt) ->
     (exists! tag, incremented_at (fst c) (fst c') tag) /\
     (exists! key, incremented_at (snd c) (snd c') key)) /\
  (forall fs log_filename lookup_table log tag_counts port_protocol_counts,
     parse_flow_logs fs log_filename lookup_table =
       (log, Ok (tag_counts, port_protocol_counts)) ->
     Dict.total tag_counts = Dict.total port_protocol_counts /\
     Dict.total tag_counts =
       Z.of_nat (List.length (filter well_formed (lines_of fs log_filename))) /\
     filter well_formed (lines_of fs log_filename) = lines_of fs log_filename) /\
  (forall lookup_table lines log c log' c' r,
     for_each lines (parse_line lookup_table) (log, c) = ((log', c'), r) ->
     (forall tag,
        Dict.get_default (fst c) tag 0 <= Dict.get_default (fst c') tag 0) /\
     (forall key,
        Dict.get_default (snd c) key 0 <= Dict.get_default (snd c') key 0)).
Proof.
  split; [|split].
  - intros tbl line log c log' c'. rewrite parse_line_spec.
    destruct (kind_of line) as [p pr|v|]; try discriminate.
    intros [= _ <-]. cbn [count_record fst snd].
    split; apply incremented_at_incr.
  - intros fs f tbl log tc ppc. rewrite parse_flow_logs_spec.
    unfold lines_of. destruct (fs f) as [|msg|lines].
    + intros [= _ <- <-]. repeat split.
    + discriminate.
    + destruct (scan tbl lines (Dict.empty, Dict.empty)) as [c [[]|]] eqn:Sc;
        try discriminate.
      intros [= _ ->]. apply scan_completes in Sc.
      destruct Sc as (F & T1 & T2). cbn [fst snd] in T1, T2.
      rewrite (filter_all _ _ F). repeat split.
      * rewrite T1, T2. reflexivity.
      * rewrite T1. reflexivity.
  - intros tbl lines log c log' c' r. rewrite for_each_parse_line.
    destruct (scan tbl lines c) as [c1 k] eqn:Sc.
    apply scan_monotone in Sc.
    destruct k as [[]|]; intros [= _ <- _]; exact Sc.
Qed.

Lemma one_increment_per_record_witness :
  ((exists! tag, incremented_at (@Dict.empty string Z)
                   [("email", 1)] tag) /\
   (exists! key, incremented_at (@Dict.empty (string * string) Z)
                   [(("25", "tcp"), 1)] key)) /\
  (Dict.total [("email", 1); ("Untagged", 2)] =
     Dict.total [(("25", "tcp"), 1); (("80", "unknown"), 1); (("81", "udp"), 1)] /\
   Dict.total [("email", 1); ("Untagged", 2)] =
     Z.of_nat (List.length (filter well_formed (lines_of example_logs "flow.log"))) /\
   filter well_formed (lines_of example_logs "flow.log") =
     lines_of example_logs "flow.log") /\
  ((forall tag, Dict.get_default (@Dict.empty string Z) tag 0
                <= Dict.get_default [("email", 1); ("Untagged", 1)] tag 0) /\
   (forall key, Dict.get_default (@Dict.empty (string * string) Z) key 0
                <= Dict.get_default [(("25", "tcp"), 1); (("80", "unknown"), 1)] key 0)).
Proof.
  destruct one_increment_per_record as (A & B & C).
  split; [|split].
  - exact (A example_table line_email [] (Dict.empty, Dict.empty) []
             ([("email", 1)], [(("25", "tcp"), 1)])
             ltac:(vm_compute; reflexivity)).
  - exact (B example_logs "flow.log" example_table
             [(INFO, "Flow logs processed successfully.")]
             [("email", 1); ("Untagged", 2)]
             [(("25", "tcp"), 1); (("80", "unknown"), 1); (("81", "udp"), 1)]
             ltac:(vm_compute; reflexivity)).
  - exact (C example_table [line_email; line_unknown; line_short; line_port]
             [] (Dict.empty, Dict.empty) []
             ([("email", 1); ("Untagged", 1)],
              [(("25", "tcp"), 1); (("80", "unknown"), 1)])
             (Raise index_error)
             ltac:(vm_compute; reflexivity)).
Defined.


(** ** The protocol resolver *)

(** C4.  [resolve] is a function of the code alone, over the fixed
    table: codes 6, 17 and 999 give tcp, udp and unknown; every code
    of the table gives its name, which is lowercase; every code that
    is not a key of the table gives ["unknown"]; and there is no other
    outcome. *)
Theorem resolve_total :
  resolve "6" = "tcp" /\ resolve "17" = "udp" /\ resolve "999" = "unknown" /\
  (forall code name,
     In (code, name) protocol_map ->
     resolve code = name /\ Str.lower name = name) /\
  (forall code,
     ~ In code (Dict.keys protocol_map) -> resolve code = "unknown") /\
  (forall code,
     In (code, resolve code) protocol_map \/ resolve code = "unknown").
Proof.
  repeat split; try reflexivity.
  - cbn [protocol_map In] in H.
    repeat (destruct H as [H|H]; [now inversion H|]). contradiction.
  - cbn [protocol_map In] in H.
    repeat (destruct H as [H|H]; [now inversion H|]). contradiction.
  - intros code N. apply get_none_not_in in N.
    unfold resolve, Dict.get_default. now rewrite N.
  - intros code. unfold resolve, Dict.get_default.
    destruct (Dict.get protocol_map code) as [name|] eqn:G; [left|now right].
    now apply get_some_in.
Qed.

Lemma resolve_total_witness :
  (resolve "132" = "sctp" /\ Str.lower "sctp" = "sctp") /\
  resolve "7" = "unknown".
Proof.
  destruct resolve_total as (_ & _ & _ & A & B & _). split.
  - apply A. cbn. tauto.
  - apply B. cbn. intros N.
    repeat (destruct N as [N|N]; [discriminate N|]). exact N.
Defined.

(** ** The loader *)

Lemma for_each_load_row rows log (lookup_table : lookup) :
  for_each rows (fun row =>
    f <- unpack3 row ;;
    let '(dstport, protocol, tag) := f in
    update (fun lookup_table : lookup =>
      Dict.set lookup_table (dstport, Str.lower protocol) tag))
    (log, lookup_table) =
  match load_scan rows lookup_table with
  | (t, None) => ((log, t), Ok tt)
  | (t, Some row) => ((log, t), Raise (unpack_error row))
  end.
Proof.
  revert lookup_table.
  induction rows as [|row rows IH]; intros lookup_table; [reflexivity|].
  cbn [for_each]. unfold bind at 1.
  destruct row as [|a [|b [|c [|d row]]]]; try reflexivity.
  cbn. apply IH.
Qed.

(** [load_lookup_table] in closed form. *)
Lemma load_lookup_table_spec fs filename :
  load_lookup_table fs filename =
  match fs filename with
  | Missing => ([(ERROR, "Could not find the file: " ++ filename)], Ok Dict.empty)
  | Unreadable msg => ([loading_log filename (OSError msg)], Ok Dict.empty)
  | Readable [] => ([loading_log filename StopIteration], Ok Dict.empty)
  | Readable (_ :: rows) =>
      match load_scan rows Dict.empty with
      | (t, None) => ([(INFO, "Lookup table successfully loaded.")], Ok t)
      | (t, Some row) => ([loading_log filename (unpack_error row)], Ok t)
      end
  end.
Proof.
  unfold load_lookup_table, load_body, try_except, bind, open.
  destruct (fs filename) as [|msg|[|header rows]]; try reflexivity.
  cbn [ret next snd]. rewrite for_each_load_row.
  destruct (load_scan rows Dict.empty) as [t [row|]]; reflexivity.
Qed.

Lemma load_scan_data data rest lookup_table :
  load_scan (map row3 data ++ rest) lookup_table =
  load_scan rest
    (fold_left (fun t x =>
       let '(dstport, protocol, tag) := x in
       Dict.set t (dstport, Str.lower protocol) tag) data lookup_table).
Proof.
  revert lookup_table.
  induction data as [|[[p pr] t] data IH]; intros lookup_table; [reflexivity|].
  cbn [map app row3 load_scan fold_left]. apply IH.
Qed.

Lemma get_loaded data (lookup_table : lookup) key :
  Dict.get
    (fold_left (fun t x =>
       let '(dstport, protocol, tag) := x in
       Dict.set t (dstport, Str.lower protocol) tag) data lookup_table) key =
  match last_tag data key with
  | Some tag => Some tag
  | None => Dict.get lookup_table key
  end.
Proof.
  revert lookup_table.
  induction data as [|[[p pr] t] data IH]; intros lookup_table; [reflexivity|].
  cbn [fold_left last_tag]. rewrite IH.
  destruct (last_tag data key); [reflexivity|].
  destruct (key_eqb (p, Str.lower pr) key) eqn:E.
  - apply key_eqb_eq in E. subst key. apply get_set_same.
  - apply get_set_other. intros ->. now rewrite key_eqb_refl in E.
Qed.

Lemma load_scan_bad bad rest (lookup_table : lookup) :
  List.length bad <> 3%nat ->
  load_scan (bad :: rest) lookup_table = (lookup_table, Some bad).
Proof.
  intros N. destruct bad as [|a [|b [|c [|d bad]]]]; try reflexivity.
  now contradiction N.
Qed.

(** C5.  From a source that opens and holds a header row and data
    rows of three fields each, [load_lookup_table] returns, without an
    error, a table in which a key (port, protocol) has the tag of the
    last data row of that port whose protocol lowercases to that
    protocol, and has no entry when there is no such row; the header
    row takes no part. *)
Theorem load_lookup_round_trip fs filename header data :
  fs filename = Readable (header :: map row3 data) ->
  exists lookup_table,
    load_lookup_table fs filename =
      ([(INFO, "Lookup table successfully loaded.")], Ok lookup_table) /\
    forall dstport protocol,
      Dict.get lookup_table (dstport, protocol) =
      last_tag data (dstport, protocol).
Proof.
  intros E. rewrite load_lookup_table_spec, E.
  rewrite <- (app_nil_r (map row3 data)), load_scan_data. cbn [load_scan].
  eexists. split; [reflexivity|].
  intros p pr. rewrite get_loaded.
  destruct (last_tag data (p, pr)); reflexivity.
Qed.

Lemma load_lookup_round_trip_witness :
  exists lookup_table,
    load_lookup_table example_tables "lookup.csv" =
      ([(INFO, "Lookup table successfully loaded.")], Ok lookup_table) /\
    Dict.get lookup_table ("80", "tcp") = Some "web" /\
    Dict.get lookup_table ("81", "tcp") = None.
Proof.
  destruct (load_lookup_round_trip example_tables "lookup.csv"
              ["destination_port"; "protocol"; "tag"]
              [("80", "tcp", "web")] eq_refl) as (t & E & G).
  exists t. split; [exact E|]. rewrite !G. split; reflexivity.
Defined.

(** C7, as the code has it.  [load_lookup_table] never raises; when,
    after data rows of three fields each, a row has not three fields,
    it logs the [ValueError] of that row and returns the table of the
    rows before it, each key with the tag of its last row among them,
    whatever rows follow. *)
Theorem malformed_row_stops_loading :
  (forall fs filename,
     exists log lookup_table,
       load_lookup_table fs filename = (log, Ok lookup_table)) /\
  (forall fs filename header data bad rest,
     fs filename = Readable (header :: map row3 data ++ bad :: rest) ->
     List.length bad <> 3%nat ->
     exists lookup_table,
       load_lookup_table fs filename =
         ([loading_log filename (unpack_error bad)], Ok lookup_table) /\
       forall dstport protocol,
         Dict.get lookup_table (dstport, protocol) =
         last_tag data (dstport, protocol)).
Proof.
  split.
  - intros fs filename. rewrite load_lookup_table_spec.
    destruct (fs filename) as [|msg|[|header rows]]; eauto.
    destruct (load_scan rows Dict.empty) as [t [row|]]; eauto.
  - intros fs filename header data bad rest E N.
    rewrite load_lookup_table_spec, E, load_scan_data, load_scan_bad by exact N.
    eexists. split; [reflexivity|].
    intros p pr. rewrite get_loaded.
    destruct (last_tag data (p, pr)); reflexivity.
Qed.

Lemma malformed_row_stops_loading_witness :
  exists lookup_table,
    load_lookup_table example_tables "ragged.csv" =
      ([loading_log "ragged.csv" (unpack_error ["81"; "tcp"])],
       Ok lookup_table) /\
    Dict.get lookup_table ("80", "tcp") = Some "web" /\
    Dict.get lookup_table ("82", "tcp") = None.
Proof.
  destruct (proj2 malformed_row_stops_loading example_tables "ragged.csv"
              ["destination_port"; "protocol"; "tag"]
              [("80", "tcp", "web")] ["81"; "tcp"] [["82"; "tcp"; "late"]]
              eq_refl ltac:(discriminate)) as (t & E & G).
  exists t. split; [exact E|]. rewrite !G. split; reflexivity.
Defined.

(** C7, counterexample.  A data row of two fields makes the call
    log an error and return the rows loaded so far, and raise
    nothing. *)
Lemma malformed_row_not_an_error :
  load_lookup_table example_tables "ragged.csv" =
    ([(ERROR, "Error occurred while loading lookup table from ragged.csv: not enough values to unpack (expected 3, got 2)")],
     Ok [(("80", "tcp"), "web")]) /\
  ~ (exists e, snd (load_lookup_table example_tables "ragged.csv") = Raise e).
Proof.
  split; [reflexivity | intros [e E]; vm_compute in E; discriminate].
Qed.

(** ** The report writer *)

Lemma insert_desc_perm x l : Permutation (x :: l) (insert_desc x l).
Proof.
  induction l as [|y l IH]; cbn [insert_desc]; [reflexivity|].
  destruct (snd x <? snd y); [|reflexivity].
  rewrite perm_swap. now constructor.
Qed.

Lemma sorted_desc_perm xs : Permutation xs (sorted_desc xs).
Proof.
  induction xs as [|x xs IH]; cbn [sorted_desc]; [reflexivity|].
  rewrite <- insert_desc_perm. now constructor.
Qed.

Lemma insert_desc_sorted x l :
  StronglySorted count_ge l -> StronglySorted count_ge (insert_desc x l).
Proof.
  induction 1 as [|y l S IH F]; cbn [insert_desc].
  - repeat constructor.
  - destruct (snd x <? snd y) eqn:E.
    + apply Z.ltb_lt in E. constructor; [exact IH|].
      eapply Permutation_Forall; [apply insert_desc_perm|].
      constructor; [unfold count_ge; lia | exact F].
    + apply Z.ltb_ge in E. constructor; [now constructor|].
      constructor; [exact E|].
      eapply Forall_impl; [|exact F]. unfold count_ge. intros z; lia.
Qed.

Lemma sorted_desc_sorted xs : StronglySorted count_ge (sorted_desc xs).
Proof.
  induction xs as [|x xs IH]; cbn [sorted_desc];
    [constructor | now apply insert_desc_sorted].
Qed.

(** The sort is stable: items of one count keep their order. *)
Lemma insert_desc_stable n x l :
  filter (has_count n) (insert_desc x l) = filter (has_count n) (x :: l).
Proof.
  induction l as [|y l IH]; cbn [insert_desc]; [reflexivity|].
  destruct (snd x <? snd y) eqn:E; [|reflexivity].
  apply Z.ltb_lt in E. cbn [filter] in *. rewrite IH. unfold has_count.
  destruct (snd y =? n) eqn:Ey; destruct (snd x =? n) eqn:Ex; try reflexivity.
  apply Z.eqb_eq in Ey, Ex. lia.
Qed.

Lemma sorted_desc_stable n xs :
  filter (has_count n) (sorted_desc xs) = filter (has_count n) xs.
Proof.
  induction xs as [|x xs IH]; cbn [sorted_desc]; [reflexivity|].
  rewrite insert_desc_stable. cbn [filter]. now rewrite IH.
Qed.

Lemma for_each_writerow {A} (f : A -> row) xs log written :
  for_each xs (fun x => writerow (f x)) (log, written) =
  ((log, (written ++ map f xs)%list), Ok tt).
Proof.
  revert written. induction xs as [|x xs IH]; intros written.
  - cbn. now rewrite app_nil_r.
  - cbn [for_each map]. unfold bind at 1, writerow at 1, update.
    cbn [fst snd]. rewrite IH, <- app_assoc. reflexivity.
Qed.

Lemma write_tag_block_spec tag_counts log written :
  write_tag_block tag_counts (log, written) =
  ((log,
    (written ++ [Text "Tag"; Text "Count"]
       :: map tag_row (sorted_tags tag_counts)
       ++ (if 0 <? Dict.get_default tag_counts "Untagged" 0
           then [[Text "Untagged";
                  Int (Dict.get_default tag_counts "Untagged" 0)]]
           else []))%list),
   Ok tt).
Proof.
  unfold write_tag_block, bind. unfold writerow at 1, update. cbn [fst snd].
  rewrite (for_each_writerow tag_row).
  destruct (0 <? Dict.get_default tag_counts "Untagged" 0).
  - unfold writerow, update. cbn [fst snd].
    rewrite <- !app_assoc. reflexivity.
  - unfold ret. rewrite app_nil_r, <- app_assoc. reflexivity.
Qed.

Lemma tag_block_spec tag_counts :
  tag_block tag_counts =
  ([Text "Tag"; Text "Count"]
     :: map tag_row (sorted_tags tag_counts)
     ++ (if 0 <? Dict.get_default tag_counts "Untagged" 0
         then [[Text "Untagged"; Int (Dict.get_default tag_counts "Untagged" 0)]]
         else []))%list.
Proof. unfold tag_block. rewrite write_tag_block_spec. reflexivity. Qed.

(** What [save_results] writes when the sink opens. *)
Lemma save_results_spec sink tag_counts port_protocol_counts output_filename :
  sink output_filename = Readable tt ->
  save_results sink tag_counts port_protocol_counts output_filename =
  ([(INFO, "Results successfully saved.")],
   ([Text "Tag Counts"] :: tag_block tag_counts
      ++ [] :: [Text "Port/Protocol Combination Counts"]
      :: [Text "Port"; Text "Protocol"; Text "Count"]
      :: map (fun x => [Text (fst (fst x)); Text (snd (fst x)); Int (snd x)])
           (Dict.items port_protocol_counts))%list).
Proof.
  intros E. unfold save_results, save_body, try_except, bind, open.
  rewrite E. cbn [ret]. unfold writerow at 1, update. cbn [fst snd].
  rewrite write_tag_block_spec.
  unfold writerow at 1 2 3, update. cbn [fst snd].
  rewrite (for_each_writerow
             (fun x => [Text (fst (fst x)); Text (snd (fst x)); Int (snd x)])).
  cbn [logging fst snd app]. rewrite tag_block_spec.
  repeat (rewrite <- app_assoc; cbn [app]). reflexivity.
Qed.

Lemma sorted_tags_not_untagged tag_counts x :
  In x (sorted_tags tag_counts) -> fst x <> "Untagged".
Proof.
  intros I. unfold sorted_tags in I.
  eapply Permutation_in in I; [|symmetry; apply sorted_desc_perm].
  apply filter_In in I. destruct I as [_ I].
  apply negb_true_iff, String.eqb_neq in I. exact I.
Qed.

(** C3.  When the sink opens, [save_results] writes after the caption
    the tag block, closed by the blank row.  The block is the header
    [Tag, Count], then one row for each tag other than ["Untagged"] in
    descending order of count, then the row of ["Untagged"]: last
    whenever its count is positive, however it compares with the
    others, and absent when its count is 0. *)
Theorem untagged_row_last tag_counts :
  let untagged_count := Dict.get_default tag_counts "Untagged" 0 in
  (forall sink port_protocol_counts output_filename,
     sink output_filename = Readable tt ->
     exists rest,
       snd (save_results sink tag_counts port_protocol_counts output_filename)
       = ([Text "Tag Counts"] :: tag_block tag_counts ++ [] :: rest)%list) /\
  tag_block tag_counts =
    ([Text "Tag"; Text "Count"]
       :: map tag_row (sorted_tags tag_counts)
       ++ (if 0 <? untagged_count
           then [[Text "Untagged"; Int untagged_count]] else []))%list /\
  StronglySorted count_ge (sorted_tags tag_counts) /\
  Permutation (sorted_tags tag_counts)
    (filter not_untagged (Dict.items tag_counts)) /\
  (0 < untagged_count ->
   last (tag_block tag_counts) [] = [Text "Untagged"; Int untagged_count]) /\
  (untagged_count = 0 ->
   forall r, In r (tag_block tag_counts) -> hd_error r <> Some (Text "Untagged")).
Proof.
  intros u. repeat split.
  - intros sink ppc out E. rewrite (save_results_spec _ _ _ _ E).
    eexists. reflexivity.
  - apply tag_block_spec.
  - apply sorted_desc_sorted.
  - symmetry. apply sorted_desc_perm.
  - intros P. rewrite tag_block_spec. fold u.
    apply Z.ltb_lt in P. rewrite P.
    change ([Text "Tag"; Text "Count"] :: map tag_row (sorted_tags tag_counts)
              ++ [[Text "Untagged"; Int u]])%list
      with (([Text "Tag"; Text "Count"] :: map tag_row (sorted_tags tag_counts))
              ++ [[Text "Untagged"; Int u]])%list.
    apply last_last.
  - intros Z0 r I. rewrite tag_block_spec in I. fold u in I. rewrite Z0 in I.
    cbn [Z.ltb Z.compare] in I. rewrite app_nil_r in I.
    destruct I as [<- | I]; [discriminate|].
    apply in_map_iff in I. destruct I as (x & <- & I).
    apply sorted_tags_not_untagged in I. cbn. congruence.
Qed.

Lemma untagged_row_last_witness :
  tag_block example_tag_counts =
    [ [Text "Tag"; Text "Count"];
      [Text "web"; Int 5]; [Text "dns"; Int 5]; [Text "ssh"; Int 3];
      [Text "Untagged"; Int 9] ] /\
  last (tag_block example_tag_counts) [] = [Text "Untagged"; Int 9] /\
  (forall r, In r (tag_block [("web", 5); ("Untagged", 0); ("ssh", 3)]) ->
             hd_error r <> Some (Text "Untagged")).
Proof.
  split; [|split].
  - exact (proj1 (proj2 (untagged_row_last example_tag_counts))).
  - apply (untagged_row_last example_tag_counts). reflexivity.
  - apply (untagged_row_last [("web", 5); ("Untagged", 0); ("ssh", 3)]).
    reflexivity.
Defined.

(** ** The ["Untagged"] counter *)

Lemma get_default_incr (d : Dict.dict string Z) k k' :
  Dict.get_default (Dict.incr d k) k' 0 =
  Dict.get_default d k' 0 + (if (k =? k')%string then 1 else 0).
Proof.
  destruct (k =? k')%string eqn:E.
  - apply String.eqb_eq in E. subst. apply get_default_incr_same.
  - apply String.eqb_neq in E. unfold Dict.get_default.
    rewrite get_incr_other by congruence. lia.
Qed.

Lemma scan_tag_count lookup_table lines c c' tag :
  scan lookup_table lines c = (c', None) ->
  Dict.get_default (fst c') tag 0 =
  Dict.get_default (fst c) tag 0
  + Z.of_nat (List.length (filter (tagged lookup_table tag) lines)).
Proof.
  revert c. induction lines as [|line lines IH]; intros c; cbn [scan filter].
  - intros [= ->]. cbn. lia.
  - unfold tagged at 1, line_key.
    destruct (kind_of line) as [p pr| |]; try discriminate.
    intros S. rewrite (IH _ S). cbn [count_record fst].
    rewrite get_default_incr.
    destruct (tag_of lookup_table (p, pr) =? tag)%string;
      cbn [List.length]; lia.
Qed.

Lemma scan_ext t1 t2 lines c :
  (forall key, tag_of t1 key = tag_of t2 key) ->
  scan t1 lines c = scan t2 lines c.
Proof.
  intros T. revert c. induction lines as [|line lines IH]; intros c;
    cbn [scan]; [reflexivity|].
  destruct (kind_of line); try reflexivity.
  unfold count_record. rewrite T. apply IH.
Qed.

Lemma tagged_untagged lookup_table lines :
  List.length (filter (tagged lookup_table "Untagged") lines) =
  (List.length (filter (unmatched lookup_table) lines)
   + List.length (filter (matched_untagged lookup_table) lines))%nat.
Proof.
  induction lines as [|line lines IH]; [reflexivity|].
  cbn [filter]. unfold tagged at 1, unmatched at 1, matched_untagged at 1.
  unfold tag_of, Dict.get_default.
  destruct (line_key line) as [key|]; [|exact IH].
  destruct (Dict.get lookup_table key) as [t|].
  - destruct (t =? "Untagged")%string; cbn [List.length]; lia.
  - cbn [String.eqb Ascii.eqb Bool.eqb andb List.length]. lia.
Qed.

Lemma filter_untagged_rows tag_counts :
  filter untagged_row (map tag_row (sorted_tags tag_counts)) = [].
Proof.
  assert (F : forall x, In x (sorted_tags tag_counts) -> fst x <> "Untagged")
    by apply sorted_tags_not_untagged.
  induction (sorted_tags tag_counts) as [|x l IH]; [reflexivity|].
  cbn [map filter tag_row untagged_row].
  destruct (fst x =? "Untagged")%string eqn:E.
  - apply String.eqb_eq in E. exfalso. apply (F x); [now left | exact E].
  - apply IH. intros y I. apply F. now right.
Qed.


(** ** The examples of the specification *)

(** Three records: one tagged, one of an unmapped protocol code, one
    of an unmapped port. *)
Example flow_log_counts :
  parse_flow_logs example_logs "flow.log" example_table =
  ([(INFO, "Flow logs processed successfully.")],
   Ok ([("email", 1); ("Untagged", 2)],
       [(("25", "tcp"), 1); (("80", "unknown"), 1); (("81", "udp"), 1)])).
Proof. reflexivity. Qed.

(** A blank line has no field 0. *)
Example blank_line_raises :
  parse_flow_logs example_logs "blank.log" example_table =
  ([processing_log "blank.log" index_error], Raise index_error).
Proof. reflexivity. Qed.

(** Protocols are lowercased and a later row replaces an earlier one
    in place. *)
Example mixed_case_table :
  load_lookup_table example_tables "mixed.csv" =
  ([(INFO, "Lookup table successfully loaded.")],
   Ok [(("80", "tcp"), "www"); (("25", "tcp"), "mail")]).
Proof. reflexivity. Qed.

Example report_tag_block :
  tag_block [("web", 5); ("ssh", 3); ("Untagged", 2)] =
  [ [Text "Tag"; Text "Count"];
    [Text "web"; Int 5]; [Text "ssh"; Int 3]; [Text "Untagged"; Int 2] ].
Proof. reflexivity. Qed.

(** * Further properties *)

(** ** More on dictionaries *)

Section MoreDictFacts.
Context {K : Type} `{KeyLaws K}.

Lemma existsb_key_in (seen : list K) k :
  existsb (fun k' => key_eqb k' k) seen = true <-> In k seen.
Proof.
  rewrite existsb_exists. split.
  - intros (k' & I & E). apply key_eqb_eq in E. now subst.
  - intros I. exists k. split; [exact I | apply key_eqb_refl].
Qed.

Lemma keys_set {V} (d : Dict.dict K V) k v :
  Dict.keys (Dict.set d k v) = remember (Dict.keys d) k.
Proof.
  unfold remember, Dict.keys.
  induction d as [|[k' v'] d IH]; cbn [Dict.set map existsb fst].
  - reflexivity.
  - destruct (key_eqb k' k); cbn [map fst orb]; [reflexivity|].
    rewrite IH. destruct (existsb _ (map fst d)); reflexivity.
Qed.

Lemma NoDup_remember (seen : list K) k : NoDup seen -> NoDup (remember seen k).
Proof.
  intros N. unfold remember.
  destruct (existsb (fun k' => key_eqb k' k) seen) eqn:E; [exact N|].
  apply NoDup_app; [exact N | repeat constructor; intros [] | ].
  intros x I [<-|[]]. apply existsb_key_in in I. congruence.
Qed.

Lemma in_remember (seen : list K) k x :
  In x (remember seen k) <-> In x seen \/ x = k.
Proof.
  unfold remember.
  destruct (existsb (fun k' => key_eqb k' k) seen) eqn:E.
  - apply existsb_key_in in E. split; [auto | intros [I | ->]; auto].
  - rewrite in_app_iff. cbn. intuition congruence.
Qed.

Lemma in_set {V} (d : Dict.dict K V) k v k' v' :
  In (k', v') (Dict.set d k v) -> (k' = k /\ v' = v) \/ In (k', v') d.
Proof.
  induction d as [|[k0 v0] d IH]; cbn [Dict.set].
  - intros [[= <- <-] | []]. now left.
  - destruct (key_eqb k0 k) eqn:E.
    + apply key_eqb_eq in E. subst k0.
      intros [[= <- <-] | I]; [now left | right; now right].
    + intros [I | I]; [right; now left|].
      destruct (IH I) as [L | R]; [now left | right; now right].
Qed.

Lemma set_not_nil {V} (d : Dict.dict K V) k v : Dict.set d k v <> [].
Proof.
  destruct d as [|[k' v'] d]; cbn [Dict.set]; [discriminate|].
  destruct (key_eqb k' k); discriminate.
Qed.

Lemma get_in_keys {V} (d : Dict.dict K V) k v :
  Dict.get d k = Some v -> In k (Dict.keys d).
Proof.
  intros G. apply get_some_in in G.
  apply (in_map fst) in G. exact G.
Qed.
End MoreDictFacts.

(** ** More on the loader *)

Lemma lower_char_idem c : Str.lower_char (Str.lower_char c) = Str.lower_char c.
Proof. destruct c as [[] [] [] [] [] [] [] []]; reflexivity. Qed.

Lemma lower_idem s : Str.lower (Str.lower s) = Str.lower s.
Proof.
  induction s as [|c s IH]; cbn [Str.lower]; [reflexivity|].
  now rewrite lower_char_idem, IH.
Qed.

Lemma table_ok_set t dstport protocol tag :
  table_ok t -> table_ok (Dict.set t (dstport, Str.lower protocol) tag).
Proof.
  intros [N L]. unfold table_ok. rewrite keys_set. split.
  - now apply NoDup_remember.
  - apply Forall_forall. intros key I. apply in_remember in I.
    destruct I as [I | ->]; [|apply lower_idem].
    rewrite Forall_forall in L. now apply L.
Qed.

Lemma load_scan_ok rows t : table_ok t -> table_ok (fst (load_scan rows t)).
Proof.
  revert t. induction rows as [|row rows IH]; intros t T; [exact T|].
  destruct row as [|a [|b [|c [|d row]]]]; try exact T.
  cbn [load_scan]. apply IH. now apply table_ok_set.
Qed.

Lemma load_scan_keeps rows (t : lookup) :
  t <> [] -> fst (load_scan rows t) <> [].
Proof.
  revert t. induction rows as [|row rows IH]; intros t T; [exact T|].
  destruct row as [|a [|b [|c [|d row]]]]; try exact T.
  cbn [load_scan]. apply IH. apply set_not_nil.
Qed.

Lemma load_lookup_table_returns fs filename :
  exists log, load_lookup_table fs filename =
    (log, Ok match fs filename with
             | Readable (_ :: rows) => fst (load_scan rows Dict.empty)
             | _ => Dict.empty
             end).
Proof.
  rewrite load_lookup_table_spec.
  destruct (fs filename) as [|msg|[|header rows]]; eauto.
  destruct (load_scan rows Dict.empty) as [t [row|]]; eauto.
Qed.

(** X1.  [load_lookup_table] returns the empty table exactly when the
    source is not there, cannot be opened, is empty, has only its
    header row, or has a first data row that has not three fields;
    in every other case the table has an entry. *)
Theorem loaded_table_empty_iff fs filename :
  exists log lookup_table,
    load_lookup_table fs filename = (log, Ok lookup_table) /\
    (lookup_table = Dict.empty <-> first_row_loads fs filename = false).
Proof.
  destruct (load_lookup_table_returns fs filename) as (log & E).
  eexists _, _. split; [exact E|]. unfold first_row_loads.
  destruct (fs filename) as [|msg|[|header rows]];
    try (split; reflexivity).
  destruct rows as [|row rows]; [split; reflexivity|].
  destruct row as [|a [|b [|c [|d row]]]]; try (split; reflexivity).
  cbn [load_scan]. split; [|discriminate].
  intros E0. exfalso. revert E0. apply load_scan_keeps, set_not_nil.
Qed.

(** X2.  Whatever the source, the table [load_lookup_table] returns
    has distinct keys, and a key that has an entry has its protocol
    in lowercase: a lookup with a protocol that is not in lowercase
    misses. *)
Theorem loaded_table_keys fs filename log lookup_table :
  load_lookup_table fs filename = (log, Ok lookup_table) ->
  NoDup (Dict.keys lookup_table) /\
  (forall dstport protocol tag,
     Dict.get lookup_table (dstport, protocol) = Some tag ->
     Str.lower protocol = protocol).
Proof.
  intros E. destruct (load_lookup_table_returns fs filename) as (log' & E').
  rewrite E in E'. injection E' as _ ->.
  assert (T : table_ok match fs filename with
                       | Readable (_ :: rows) => fst (load_scan rows Dict.empty)
                       | _ => Dict.empty
                       end).
  { assert (T0 : table_ok Dict.empty) by (split; constructor).
    destruct (fs filename) as [|msg|[|header rows]]; try exact T0.
    now apply load_scan_ok. }
  destruct T as [N L]. split; [exact N|].
  intros p pr tag G. apply get_in_keys in G.
  rewrite Forall_forall in L. exact (L _ G).
Qed.

Lemma loaded_table_keys_witness :
  NoDup (Dict.keys [(("80", "tcp"), "www"); (("25", "tcp"), "mail")]) /\
  (forall dstport protocol tag,
     Dict.get [(("80", "tcp"), "www"); (("25", "tcp"), "mail")]
       (dstport, protocol) = Some tag ->
     Str.lower protocol = protocol).
Proof.
  exact (loaded_table_keys example_tables "mixed.csv"
           [(INFO, "Lookup table successfully loaded.")]
           [(("80", "tcp"), "www"); (("25", "tcp"), "mail")]
           ltac:(vm_compute; reflexivity)).
Defined.

Lemma load_scan_lower rows t :
  load_scan (map lower_protocol rows) t = load_scan rows t.
Proof.
  revert t. induction rows as [|row rows IH]; intros t; [reflexivity|].
  destruct row as [|a [|b [|c [|d row]]]]; try reflexivity.
  cbn [map lower_protocol load_scan]. now rewrite lower_idem, IH.
Qed.

(** X3.  The case of the protocol column does not matter: a source and
    the same source with the protocol of every three-field row in
    lowercase load alike, log included. *)
Theorem load_case_insensitive fs1 fs2 filename header rows :
  fs1 filename = Readable (header :: rows) ->
  fs2 filename = Readable (header :: map lower_protocol rows) ->
  load_lookup_table fs1 filename = load_lookup_table fs2 filename.
Proof.
  intros E1 E2. rewrite !load_lookup_table_spec, E1, E2, load_scan_lower.
  reflexivity.
Qed.

Lemma load_case_insensitive_witness :
  load_lookup_table upper_tables "lookup.csv" =
  load_lookup_table lower_tables "lookup.csv".
Proof.
  exact (load_case_insensitive upper_tables lower_tables "lookup.csv"
           ["destination_port"; "protocol"; "tag"]
           [ ["80"; "TCP"; "web"]; ["53"; "Udp"; "dns"];
             ["80"; "tcp"; "www"]; ["81"] ]
           eq_refl eq_refl).
Defined.

(** ** Counters as folds *)

Section Counters.
Context {K : Type} `{KeyLaws K}.

Lemma get_incr (d : Dict.dict K Z) k k' :
  Dict.get (Dict.incr d k) k' =
  if key_eqb k k' then Some (Dict.get_default d k 0 + 1) else Dict.get d k'.
Proof.
  destruct (key_eqb k k') eqn:E.
  - apply key_eqb_eq in E. subst. unfold Dict.incr. apply get_set_same.
  - apply get_incr_other. intros ->. now rewrite key_eqb_refl in E.
Qed.

Lemma get_fold_incr (ks : list K) (d : Dict.dict K Z) k :
  Dict.get (fold_left Dict.incr ks d) k = bump (Dict.get d k) (occurrences k ks).
Proof.
  revert d. induction ks as [|k0 ks IH]; intros d; [reflexivity|].
  cbn [fold_left]. rewrite IH, get_incr. unfold occurrences. cbn [filter].
  destruct (key_eqb k0 k) eqn:E; [|reflexivity].
  apply key_eqb_eq in E. subst k0. unfold Dict.get_default.
  cbn [List.length]. unfold bump.
  destruct (List.length (filter (fun k' => key_eqb k' k) ks)) as [|n];
    f_equal; lia.
Qed.

Lemma get_default_fold_incr (ks : list K) (d : Dict.dict K Z) k :
  Dict.get_default (fold_left Dict.incr ks d) k 0 =
  Dict.get_default d k 0 + Z.of_nat (occurrences k ks).
Proof.
  unfold Dict.get_default. rewrite get_fold_incr. unfold bump.
  destruct (occurrences k ks); [lia | reflexivity].
Qed.

Lemma keys_fold_incr (ks : list K) (d : Dict.dict K Z) :
  Dict.keys (fold_left Dict.incr ks d) = fold_left remember ks (Dict.keys d).
Proof.
  revert d. induction ks as [|k ks IH]; intros d; [reflexivity|].
  cbn [fold_left]. rewrite IH. unfold Dict.incr. now rewrite keys_set.
Qed.

Lemma NoDup_fold_remember (ks seen : list K) :
  NoDup seen -> NoDup (fold_left remember ks seen).
Proof.
  revert seen. induction ks as [|k ks IH]; intros seen N; [exact N|].
  cbn [fold_left]. apply IH. now apply NoDup_remember.
Qed.

Lemma in_fold_remember (ks seen : list K) x :
  In x (fold_left remember ks seen) <-> In x seen \/ In x ks.
Proof.
  revert seen. induction ks as [|k ks IH]; intros seen; cbn [fold_left In].
  - tauto.
  - rewrite IH, in_remember. intuition congruence.
Qed.

Lemma occurrences_app k (ks1 ks2 : list K) :
  occurrences k (ks1 ++ ks2) = (occurrences k ks1 + occurrences k ks2)%nat.
Proof. unfold occurrences. now rewrite filter_app, length_app. Qed.

Lemma in_get {V} (d : Dict.dict K V) k v :
  NoDup (Dict.keys d) -> In (k, v) d -> Dict.get d k = Some v.
Proof.
  induction d as [|[k' v'] d IH]; intros N I; [destruct I|].
  cbn [Dict.keys map fst] in N. inversion N as [|? ? NI N']; subst.
  cbn [Dict.get]. destruct I as [[= -> ->] | I].
  - now rewrite key_eqb_refl.
  - destruct (key_eqb k' k) eqn:E; [|now apply IH].
    apply key_eqb_eq in E. subst k'. exfalso. apply NI.
    apply (in_map fst) in I. exact I.
Qed.
End Counters.

(** ** More on the parser *)

Lemma scan_fold lookup_table lines c c' :
  scan lookup_table lines c = (c', None) ->
  c' = (fold_left Dict.incr (map (tag_of lookup_table) (counted_keys lines))
          (fst c),
        fold_left Dict.incr (counted_keys lines) (snd c)).
Proof.
  revert c. induction lines as [|line lines IH]; intros c; cbn [scan].
  - intros [= <-]. now destruct c.
  - unfold counted_keys. cbn [flat_map]. unfold line_key at 1 3.
    destruct (kind_of line) as [p pr| |]; try discriminate.
    intros S. apply IH in S. exact S.
Qed.

Lemma counted_keys_app l1 l2 :
  counted_keys (l1 ++ l2) = (counted_keys l1 ++ counted_keys l2)%list.
Proof. apply flat_map_app. Qed.

Lemma parse_returns fs log_filename lookup_table log c :
  parse_flow_logs fs log_filename lookup_table = (log, Ok c) ->
  c = (fold_left Dict.incr
         (map (tag_of lookup_table) (counted_keys (lines_of fs log_filename)))
         Dict.empty,
       fold_left Dict.incr (counted_keys (lines_of fs log_filename))
         Dict.empty) /\
  Forall (fun l => well_formed l = true) (lines_of fs log_filename).
Proof.
  rewrite parse_flow_logs_spec. unfold lines_of.
  destruct (fs log_filename) as [|msg|lines].
  - intros [= _ <-]. split; [reflexivity | constructor].
  - discriminate.
  - destruct (scan lookup_table lines (Dict.empty, Dict.empty))
      as [c0 [[]|]] eqn:Sc; try discriminate.
    intros [= _ ->]. split.
    + apply scan_fold in Sc. exact Sc.
    + apply scan_completes in Sc. apply Sc.
Qed.

(** X4.  When [parse_flow_logs] returns, each aggregate is the exact
    tally of the lines: a tag has an entry, the number of lines given
    that tag, exactly when some line was given it, and a
    (port, protocol) pair has an entry, the number of lines of that
    pair, exactly when some line has it. *)
Theorem aggregates_are_tallies
    fs log_filename lookup_table log tag_counts port_protocol_counts :
  parse_flow_logs fs log_filename lookup_table =
    (log, Ok (tag_counts, port_protocol_counts)) ->
  (forall tag,
     Dict.get tag_counts tag =
     entry (occurrences tag
              (map (tag_of lookup_table)
                 (counted_keys (lines_of fs log_filename))))) /\
  (forall key,
     Dict.get port_protocol_counts key =
     entry (occurrences key (counted_keys (lines_of fs log_filename)))).
Proof.
  intros P. apply parse_returns in P. destruct P as [[= -> ->] _].
  split; intros k; rewrite get_fold_incr; cbn [Dict.get Dict.empty bump];
    unfold bump, entry; destruct (occurrences k _); reflexivity.
Qed.

Lemma aggregates_are_tallies_witness :
  Dict.get [("email", 1); ("Untagged", 2)] "Untagged" = Some 2 /\
  Dict.get [("email", 1); ("Untagged", 2)] "web" = None /\
  Dict.get [(("25", "tcp"), 1); (("80", "unknown"), 1); (("81", "udp"), 1)]
    ("80", "unknown") = Some 1.
Proof.
  destruct (aggregates_are_tallies example_logs "flow.log" example_table
              [(INFO, "Flow logs processed successfully.")]
              [("email", 1); ("Untagged", 2)]
              [(("25", "tcp"), 1); (("80", "unknown"), 1); (("81", "udp"), 1)]
              ltac:(vm_compute; reflexivity)) as [A B].
  split; [|split].
  - rewrite A. vm_compute. reflexivity.
  - rewrite A. vm_compute. reflexivity.
  - rewrite B. vm_compute. reflexivity.
Defined.

(** X5.  When [parse_flow_logs] returns, the entries of each aggregate
    stand in the order in which their keys first occur in the log, so
    that the port/protocol rows of the report follow the log; no key
    occurs twice. *)
Theorem aggregates_in_order_of_first_occurrence
    fs log_filename lookup_table log tag_counts port_protocol_counts :
  parse_flow_logs fs log_filename lookup_table =
    (log, Ok (tag_counts, port_protocol_counts)) ->
  Dict.keys tag_counts =
    first_seen (map (tag_of lookup_table)
                  (counted_keys (lines_of fs log_filename))) /\
  Dict.keys port_protocol_counts =
    first_seen (counted_keys (lines_of fs log_filename)) /\
  NoDup (Dict.keys tag_counts) /\
  NoDup (Dict.keys port_protocol_counts).
Proof.
  intros P. apply parse_returns in P. destruct P as [[= -> ->] _].
  rewrite !keys_fold_incr. unfold first_seen. cbn [Dict.keys Dict.empty map].
  repeat split; apply NoDup_fold_remember; constructor.
Qed.

Lemma aggregates_in_order_of_first_occurrence_witness :
  Dict.keys [("Untagged", 3); ("email", 2)] = ["Untagged"; "email"] /\
  Dict.keys [(("80", "unknown"), 2); (("81", "udp"), 1); (("25", "tcp"), 2)] =
    [("80", "unknown"); ("81", "udp"); ("25", "tcp")].
Proof.
  destruct (aggregates_in_order_of_first_occurrence
              (fun _ => Readable [line_unknown; line_port; line_email;
                                  line_unknown; line_email])
              "flow.log" example_table
              [(INFO, "Flow logs processed successfully.")]
              [("Untagged", 3); ("email", 2)]
              [(("80", "unknown"), 2); (("81", "udp"), 1); (("25", "tcp"), 2)]
              ltac:(vm_compute; reflexivity)) as (A & B & _).
  split; [rewrite A | rewrite B]; vm_compute; reflexivity.
Defined.

Lemma counted_key_protocol lines dstport protocol :
  In (dstport, protocol) (counted_keys lines) ->
  protocol = "unknown" \/ exists code, In (code, protocol) protocol_map.
Proof.
  unfold counted_keys. rewrite in_flat_map. intros (line & _ & I).
  unfold line_key, kind_of in I.
  destruct (nth_error (Str.split line) 0) as [v|]; [|destruct I].
  destruct (v =? "2")%string; [|destruct I].
  destruct (nth_error (Str.split line) 5) as [p|]; [|destruct I].
  destruct (nth_error (Str.split line) 7) as [code|]; [|destruct I].
  destruct I as [[= _ <-] | []].
  unfold resolve, Dict.get_default.
  destruct (Dict.get protocol_map code) as [name|] eqn:G; [right | now left].
  exists code. now apply get_some_in.
Qed.

Lemma tag_of_cases (lookup_table : lookup) key :
  tag_of lookup_table key = "Untagged" \/
  In (key, tag_of lookup_table key) lookup_table.
Proof.
  unfold tag_of, Dict.get_default.
  destruct (Dict.get lookup_table key) as [tag|] eqn:G; [right | now left].
  now apply get_some_in.
Qed.

Lemma fold_incr_entry {K} `{KeyLaws K} (ks : list K) k n :
  In (k, n) (fold_left Dict.incr ks Dict.empty) -> 1 <= n /\ In k ks.
Proof.
  intros I. split.
  - apply in_get in I.
    + rewrite get_fold_incr in I. cbn [Dict.get Dict.empty] in I.
      unfold bump in I. destruct (occurrences k ks); [discriminate|].
      injection I as <-. lia.
    + rewrite keys_fold_incr. apply NoDup_fold_remember. constructor.
  - apply (in_map fst) in I. cbn [fst] in I.
    change (In k (Dict.keys (fold_left Dict.incr ks Dict.empty))) in I.
    rewrite keys_fold_incr in I. apply in_fold_remember in I.
    destruct I as [[] | I]. exact I.
Qed.

(** X6.  When [parse_flow_logs] returns, every entry of the aggregates
    counts at least one line; every tag counted is ["Untagged"] or a
    tag of the lookup table; every protocol counted is ["unknown"] or
    a name of [protocol_map]. *)
Theorem aggregate_entries
    fs log_filename lookup_table log tag_counts port_protocol_counts :
  parse_flow_logs fs log_filename lookup_table =
    (log, Ok (tag_counts, port_protocol_counts)) ->
  (forall tag n,
     In (tag, n) (Dict.items tag_counts) ->
     1 <= n /\
     (tag = "Untagged" \/ exists key, In (key, tag) lookup_table)) /\
  (forall dstport protocol n,
     In ((dstport, protocol), n) (Dict.items port_protocol_counts) ->
     1 <= n /\
     (protocol = "unknown" \/ exists code, In (code, protocol) protocol_map)).
Proof.
  intros P. apply parse_returns in P. destruct P as [[= -> ->] _].
  unfold Dict.items. split.
  - intros tag n I. apply fold_incr_entry in I. destruct I as [N I].
    split; [exact N|]. apply in_map_iff in I. destruct I as (key & <- & _).
    destruct (tag_of_cases lookup_table key) as [U | T]; [now left | right].
    now exists key.
  - intros p pr n I. apply fold_incr_entry in I. destruct I as [N I].
    split; [exact N|]. now apply counted_key_protocol in I.
Qed.

Lemma aggregate_entries_witness :
  (forall tag n,
     In (tag, n) [("email", 1); ("Untagged", 2)] ->
     1 <= n /\
     (tag = "Untagged" \/ exists key, In (key, tag) example_table)) /\
  (forall dstport protocol n,
     In ((dstport, protocol), n)
        [(("25", "tcp"), 1); (("80", "unknown"), 1); (("81", "udp"), 1)] ->
     1 <= n /\
     (protocol = "unknown" \/ exists code, In (code, protocol) protocol_map)).
Proof.
  exact (aggregate_entries example_logs "flow.log" example_table
           [(INFO, "Flow logs processed successfully.")]
           [("email", 1); ("Untagged", 2)]
           [(("25", "tcp"), 1); (("80", "unknown"), 1); (("81", "udp"), 1)]
           ltac:(vm_compute; reflexivity)).
Defined.

Lemma scan_not_well_formed lookup_table line :
  well_formed line = false ->
  exists k, stops k /\
    forall rest c, scan lookup_table (line :: rest) c = (c, Some k).
Proof.
  intros W. cbn [scan]. destruct (kind_of line) as [p pr|v|] eqn:E.
  - assert (W' : well_formed line = true) by (apply well_formed_kind; eauto).
    congruence.
  - exists (BadVersion v). now split.
  - exists TooShort. now split.
Qed.

(** X7.  [parse_flow_logs] stops at the first line that is not well
    formed: the lines after it are not looked at, and whatever they
    are, the log and the exception are the same. *)
Theorem lines_after_failure_ignored
    fs1 fs2 log_filename lookup_table pre line post1 post2 :
  fs1 log_filename = Readable (pre ++ line :: post1)%list ->
  fs2 log_filename = Readable (pre ++ line :: post2)%list ->
  well_formed line = false ->
  parse_flow_logs fs1 log_filename lookup_table =
  parse_flow_logs fs2 log_filename lookup_table /\
  exists log e,
    parse_flow_logs fs1 log_filename lookup_table = (log, Raise e).
Proof.
  intros E1 E2 W. rewrite !parse_flow_logs_spec, E1, E2, !scan_app.
  destruct (scan lookup_table pre (Dict.empty, Dict.empty)) as [c [k|]] eqn:Sc.
  - split; [reflexivity|]. destruct k; eauto.
  - destruct (scan_not_well_formed lookup_table line W) as (k & St & Sk).
    rewrite !Sk. split; [reflexivity|]. destruct k; eauto.
Qed.

Lemma lines_after_failure_ignored_witness :
  parse_flow_logs example_logs "v3.log" example_table =
  parse_flow_logs cut_logs "v3.log" example_table /\
  exists log e,
    parse_flow_logs example_logs "v3.log" example_table = (log, Raise e).
Proof.
  exact (lines_after_failure_ignored example_logs cut_logs "v3.log"
           example_table [line_email; line_unknown] line_v3 [line_port] []
           eq_refl eq_refl ltac:(vm_compute; reflexivity)).
Defined.

Lemma parse_well_formed fs log_filename lookup_table lines :
  fs log_filename = Readable lines ->
  Forall (fun l => well_formed l = true) lines ->
  parse_flow_logs fs log_filename lookup_table =
  ([(INFO, "Flow logs processed successfully.")],
   Ok (fold_left Dict.incr (map (tag_of lookup_table) (counted_keys lines))
         Dict.empty,
       fold_left Dict.incr (counted_keys lines) Dict.empty)).
Proof.
  intros E F. rewrite parse_flow_logs_spec, E.
  destruct (scan_well_formed lookup_table lines (Dict.empty, Dict.empty) F)
    as (c & Sc).
  rewrite Sc. apply scan_fold in Sc. now subst c.
Qed.

(** X8.  Parsing two logs one after the other in one file gives the
    sums of what parsing each gives: when both parses return, so does
    the parse of the concatenation, and each of its entries, absent
    ones read as 0, is the sum of the entries of the two. *)
Theorem parse_of_concatenation
    fs1 fs2 fs name1 name2 name lookup_table lines1 lines2
    log1 log2 tag_counts1 tag_counts2 port_protocol_counts1
    port_protocol_counts2 :
  fs1 name1 = Readable lines1 ->
  fs2 name2 = Readable lines2 ->
  fs name = Readable (lines1 ++ lines2)%list ->
  parse_flow_logs fs1 name1 lookup_table =
    (log1, Ok (tag_counts1, port_protocol_counts1)) ->
  parse_flow_logs fs2 name2 lookup_table =
    (log2, Ok (tag_counts2, port_protocol_counts2)) ->
  exists tag_counts port_protocol_counts,
    parse_flow_logs fs name lookup_table =
      ([(INFO, "Flow logs processed successfully.")],
       Ok (tag_counts, port_protocol_counts)) /\
    (forall tag,
       Dict.get_default tag_counts tag 0 =
       Dict.get_default tag_counts1 tag 0 + Dict.get_default tag_counts2 tag 0)
    /\
    (forall key,
       Dict.get_default port_protocol_counts key 0 =
       Dict.get_default port_protocol_counts1 key 0
       + Dict.get_default port_protocol_counts2 key 0).
Proof.
  intros E1 E2 E P1 P2.
  apply parse_returns in P1. destruct P1 as [[= -> ->] F1].
  apply parse_returns in P2. destruct P2 as [[= -> ->] F2].
  unfold lines_of in *. rewrite E1 in *. rewrite E2 in *.
  eexists _, _. split.
  - apply (parse_well_formed fs name lookup_table _ E).
    apply Forall_app. now split.
  - rewrite counted_keys_app, map_app.
    split; intros k; rewrite !get_default_fold_incr, occurrences_app;
      cbn [Dict.get_default Dict.get Dict.empty]; lia.
Qed.

Lemma parse_of_concatenation_witness :
  exists tag_counts port_protocol_counts,
    parse_flow_logs both_halves "flow.log" example_table =
      ([(INFO, "Flow logs processed successfully.")],
       Ok (tag_counts, port_protocol_counts)) /\
    (forall tag,
       Dict.get_default tag_counts tag 0 =
       Dict.get_default [("email", 1); ("Untagged", 1)] tag 0
       + Dict.get_default [("Untagged", 2); ("email", 1)] tag 0) /\
    (forall key,
       Dict.get_default port_protocol_counts key 0 =
       Dict.get_default [(("25", "tcp"), 1); (("80", "unknown"), 1)] key 0
       + Dict.get_default
           [(("80", "unknown"), 1); (("81", "udp"), 1); (("25", "tcp"), 1)]
           key 0).
Proof.
  exact (parse_of_concatenation first_half second_half both_halves
           "a.log" "b.log" "flow.log" example_table
           [line_email; line_unknown] [line_unknown; line_port; line_email]
           [(INFO, "Flow logs processed successfully.")]
           [(INFO, "Flow logs processed successfully.")]
           [("email", 1); ("Untagged", 1)] [("Untagged", 2); ("email", 1)]
           [(("25", "tcp"), 1); (("80", "unknown"), 1)]
           [(("80", "unknown"), 1); (("81", "udp"), 1); (("25", "tcp"), 1)]
           eq_refl eq_refl eq_refl
           ltac:(vm_compute; reflexivity) ltac:(vm_compute; reflexivity)).
Defined.

(** ** More on the report writer *)



(** X10.  Tags of equal count are written in the order in which the
    dictionary holds them: the sort of line 108 is stable. *)
Theorem ties_keep_order tag_counts n :
  filter (has_count n) (sorted_tags tag_counts) =
  filter (has_count n) (filter not_untagged (Dict.items tag_counts)).
Proof. unfold sorted_tags. apply sorted_desc_stable. Qed.

Lemma total_fold_incr {K} `{KeyLaws K} (ks : list K) (d : Dict.dict K Z) :
  Dict.total (fold_left Dict.incr ks d) = Dict.total d + Z.of_nat (List.length ks).
Proof.
  revert d. induction ks as [|k ks IH]; intros d; cbn [fold_left List.length].
  - lia.
  - rewrite IH, total_incr. lia.
Qed.

Lemma counted_keys_length lines :
  Forall (fun l => well_formed l = true) lines ->
  List.length (counted_keys lines) = List.length lines.
Proof.
  induction 1 as [|line lines W F IH]; [reflexivity|].
  apply well_formed_kind in W. destruct W as (p & pr & E).
  unfold counted_keys in *. cbn [flat_map]. unfold line_key at 1.
  rewrite E. cbn [app List.length]. now rewrite IH.
Qed.

Lemma total_without (d : Dict.dict string Z) k :
  NoDup (Dict.keys d) ->
  Dict.total d =
  fold_right Z.add 0
    (map snd (filter (fun x => negb (fst x =? k)%string) d))
  + Dict.get_default d k 0.
Proof.
  unfold Dict.total, Dict.values, Dict.get_default.
  induction d as [|[k' v] d IH]; intros N; [reflexivity|].
  cbn [Dict.keys map fst] in N. inversion N as [|? ? NI N']; subst.
  specialize (IH N'). cbn [map snd fold_right filter fst Dict.get].
  change (key_eqb k' k) with (k' =? k)%string.
  destruct (k' =? k)%string eqn:E; cbn [negb map snd fold_right].
  - apply String.eqb_eq in E. subst k'.
    apply get_none_not_in in NI. rewrite NI in IH. lia.
  - lia.
Qed.

Lemma sum_tag_rows l :
  sum_counts (map tag_row l) = fold_right Z.add 0 (map snd l).
Proof.
  unfold sum_counts. induction l as [|x l IH]; [reflexivity|].
  cbn [map fold_right]. rewrite IH. reflexivity.
Qed.

Lemma sum_port_protocol_rows (d : port_protocol_counts_t) :
  sum_counts (map port_protocol_row (Dict.items d)) = Dict.total d.
Proof.
  unfold Dict.total, Dict.values, Dict.items, sum_counts.
  induction d as [|x d IH]; [reflexivity|].
  cbn [map fold_right]. rewrite IH. reflexivity.
Qed.

Lemma sum_perm l1 l2 :
  Permutation l1 l2 -> fold_right Z.add 0 l1 = fold_right Z.add 0 l2.
Proof. induction 1; cbn [fold_right]; lia. Qed.

Lemma sum_counts_app r1 r2 :
  sum_counts (r1 ++ r2) = sum_counts r1 + sum_counts r2.
Proof.
  unfold sum_counts. induction r1 as [|r r1 IH]; cbn [app map fold_right];
    [reflexivity | rewrite IH; lia].
Qed.

(** X11.  When [parse_flow_logs] returns, the report [save_results]
    makes of its aggregates carries in each block the number of lines
    of the log: the counts of the tag block sum to it, and so do the
    counts of the port/protocol rows; so the counts of all the rows
    [save_results] writes, when the sink opens, sum to twice that
    number. *)
Theorem report_totals
    fs log_filename lookup_table log tag_counts port_protocol_counts :
  parse_flow_logs fs log_filename lookup_table =
    (log, Ok (tag_counts, port_protocol_counts)) ->
  sum_counts (tag_block tag_counts) =
    Z.of_nat (List.length (lines_of fs log_filename)) /\
  sum_counts (map port_protocol_row (Dict.items port_protocol_counts)) =
    Z.of_nat (List.length (lines_of fs log_filename)) /\
  (forall sink output_filename,
     sink output_filename = Readable tt ->
     snd (save_results sink tag_counts port_protocol_counts output_filename) =
       ([Text "Tag Counts"] :: tag_block tag_counts
          ++ [ []; [Text "Port/Protocol Combination Counts"];
               [Text "Port"; Text "Protocol"; Text "Count"] ]
          ++ map port_protocol_row (Dict.items port_protocol_counts))%list /\
     sum_counts
       (snd (save_results sink tag_counts port_protocol_counts
               output_filename)) =
       Z.of_nat (List.length (lines_of fs log_filename))
       + Z.of_nat (List.length (lines_of fs log_filename))).
Proof.
  intros P.
  assert (A : sum_counts (tag_block tag_counts) =
                Z.of_nat (List.length (lines_of fs log_filename)) /\
              sum_counts (map port_protocol_row
                            (Dict.items port_protocol_counts)) =
                Z.of_nat (List.length (lines_of fs log_filename))).
  { apply parse_returns in P. destruct P as [[= -> ->] F].
    set (keys := counted_keys (lines_of fs log_filename)).
    assert (L : List.length keys = List.length (lines_of fs log_filename))
      by now apply counted_keys_length.
    split.
    - set (tc := fold_left Dict.incr (map (tag_of lookup_table) keys) Dict.empty).
      assert (T : Dict.total tc = Z.of_nat (List.length (lines_of fs log_filename))).
      { unfold tc. rewrite total_fold_incr, length_map, L. reflexivity. }
      assert (U : 0 <= Dict.get_default tc "Untagged" 0).
      { unfold tc. rewrite get_default_fold_incr.
        cbn [Dict.get_default Dict.get Dict.empty]. lia. }
      assert (N : NoDup (Dict.keys tc)).
      { unfold tc. rewrite keys_fold_incr. apply NoDup_fold_remember. constructor. }
      rewrite <- T, (total_without tc "Untagged" N), tag_block_spec.
      change ([Text "Tag"; Text "Count"] :: map tag_row (sorted_tags tc) ++ ?x)%list
        with ([[Text "Tag"; Text "Count"]] ++ map tag_row (sorted_tags tc) ++ x)%list.
      rewrite !sum_counts_app, sum_tag_rows.
      rewrite (sum_perm (map snd (sorted_tags tc))
                 (map snd (filter not_untagged (Dict.items tc)))).
      2:{ apply Permutation_map. symmetry. apply sorted_desc_perm. }
      change (sum_counts [[Text "Tag"; Text "Count"]]) with 0.
      unfold not_untagged, Dict.items.
      destruct (0 <? Dict.get_default tc "Untagged" 0) eqn:Pz.
      + unfold sum_counts at 1. cbn. lia.
      + apply Z.ltb_ge in Pz. unfold sum_counts at 1. cbn. lia.
    - set (ppc := fold_left Dict.incr keys Dict.empty).
      assert (T : Dict.total ppc = Z.of_nat (List.length (lines_of fs log_filename))).
      { unfold ppc. rewrite total_fold_incr, L. reflexivity. }
      rewrite <- T. apply sum_port_protocol_rows. }
  destruct A as [A1 A2]. split; [exact A1|]. split; [exact A2|].
  intros sink out E.
  assert (Lay : snd (save_results sink tag_counts port_protocol_counts out) =
    ([[Text "Tag Counts"]] ++ tag_block tag_counts
       ++ [ []; [Text "Port/Protocol Combination Counts"];
            [Text "Port"; Text "Protocol"; Text "Count"] ]
       ++ map port_protocol_row (Dict.items port_protocol_counts))%list).
  { rewrite (save_results_spec _ _ _ _ E). reflexivity. }
  split; [exact Lay|]. rewrite Lay, !sum_counts_app, A1, A2.
  change (sum_counts [[Text "Tag Counts"]]) with 0.
  change (sum_counts [ []; [Text "Port/Protocol Combination Counts"];
                       [Text "Port"; Text "Protocol"; Text "Count"] ]) with 0.
  lia.
Qed.

Lemma report_totals_witness :
  sum_counts (tag_block [("email", 1); ("Untagged", 2)]) =
    Z.of_nat (List.length (lines_of example_logs "flow.log")) /\
  sum_counts (map port_protocol_row
                (Dict.items [(("25", "tcp"), 1); (("80", "unknown"), 1);
                             (("81", "udp"), 1)])) =
    Z.of_nat (List.length (lines_of example_logs "flow.log")) /\
  sum_counts
    (snd (save_results open_sink [("email", 1); ("Untagged", 2)]
            [(("25", "tcp"), 1); (("80", "unknown"), 1); (("81", "udp"), 1)]
            "report.txt")) =
    Z.of_nat (List.length (lines_of example_logs "flow.log"))
    + Z.of_nat (List.length (lines_of example_logs "flow.log")).
Proof.
  destruct (report_totals example_logs "flow.log" example_table
              [(INFO, "Flow logs processed successfully.")]
              [("email", 1); ("Untagged", 2)]
              [(("25", "tcp"), 1); (("80", "unknown"), 1); (("81", "udp"), 1)]
              ltac:(vm_compute; reflexivity)) as (A & B & C).
  split; [exact A|]. split; [exact B|].
  exact (proj2 (C open_sink "report.txt" eq_refl)).
Defined.

(** ** [main] *)

Lemma parse_bad_version fs log_filename lookup_table pre line post version :
  fs log_filename = Readable (pre ++ line :: post)%list ->
  Forall (fun l => well_formed l = true) pre ->
  nth_error (Str.split line) 0 = Some version ->
  version <> "2" ->
  parse_flow_logs fs log_filename lookup_table =
  ([version_log version; processing_log log_filename (version_error version)],
   Raise (version_error version)).
Proof.
  intros E F V N. rewrite parse_flow_logs_spec, E.
  destruct (scan_well_formed lookup_table pre (Dict.empty, Dict.empty) F)
    as (c' & Sc).
  rewrite scan_app, Sc. cbn [scan].
  rewrite (kind_of_bad_version _ _ V N). reflexivity.
Qed.

Lemma kind_of_too_short line :
  (List.length (Str.split line) < 8)%nat ->
  nth_error (Str.split line) 0 = Some "2" \/ Str.split line = [] ->
  kind_of line = TooShort.
Proof.
  intros L V. pose proof (kind_of_short _ L) as St.
  destruct (kind_of line) as [| v |] eqn:E;
    [contradiction | exfalso | reflexivity].
  unfold kind_of in E. destruct V as [V | V]; rewrite V in E.
  - rewrite String.eqb_refl in E.
    destruct (nth_error (Str.split line) 5);
      [destruct (nth_error (Str.split line) 7)|]; discriminate.
  - discriminate.
Qed.

Lemma parse_too_short fs log_filename lookup_table pre line post :
  fs log_filename = Readable (pre ++ line :: post)%list ->
  Forall (fun l => well_formed l = true) pre ->
  (List.length (Str.split line) < 8)%nat ->
  nth_error (Str.split line) 0 = Some "2" \/ Str.split line = [] ->
  parse_flow_logs fs log_filename lookup_table =
  ([processing_log log_filename index_error], Raise index_error).
Proof.
  intros E F L V. rewrite parse_flow_logs_spec, E.
  destruct (scan_well_formed lookup_table pre (Dict.empty, Dict.empty) F)
    as (c' & Sc).
  rewrite scan_app, Sc. cbn [scan].
  rewrite (kind_of_too_short _ L V). reflexivity.
Qed.

Lemma truthy_true {K V} (d : Dict.dict K V) : d <> [] -> truthy d = true.
Proof. destruct d; [congruence | reflexivity]. Qed.

(** X12.  [main] writes a report only when everything before went
    well: the configuration was read, the lookup table loaded with at
    least one entry, and [parse_flow_logs] returned; what is written
    is then what [save_results] makes of the aggregates of that
    parse, and [main] returns. *)
Theorem main_writes_only_after_parse
    cfg date_str tables logs sink log written r :
  main cfg date_str tables logs sink = (log, written, r) ->
  written <> [] ->
  exists lookup_table_file log_file_prefix output_file_prefix
         log1 lookup_table log2 tag_counts port_protocol_counts,
    read_configuration cfg =
      inl (lookup_table_file, log_file_prefix, output_file_prefix) /\
    load_lookup_table tables lookup_table_file = (log1, Ok lookup_table) /\
    lookup_table <> Dict.empty /\
    parse_flow_logs logs (log_file_prefix ++ "_" ++ date_str ++ ".log")
      lookup_table = (log2, Ok (tag_counts, port_protocol_counts)) /\
    written =
      snd (save_results sink tag_counts port_protocol_counts
             (output_file_prefix ++ "_" ++ date_str ++ ".txt")) /\
    r = Ok tt.
Proof.
  unfold main.
  destruct (read_configuration cfg) as [[[ltf lfp] ofp]|e].
  2:{ intros [= _ <- _] N. now contradiction N. }
  destruct (load_lookup_table tables ltf) as [log1 [t|e]] eqn:L.
  2:{ intros [= _ <- _] N. now contradiction N. }
  destruct (truthy t) eqn:T.
  2:{ intros [= _ <- _] N. now contradiction N. }
  destruct (parse_flow_logs logs (lfp ++ "_" ++ date_str ++ ".log") t)
    as [log2 [[tc ppc]|e]] eqn:P.
  - destruct (save_results sink tc ppc (ofp ++ "_" ++ date_str ++ ".txt"))
      as [log3 rows] eqn:Sv.
    intros [= _ <- <-] _.
    exists ltf, lfp, ofp, log1, t, log2, tc, ppc.
    split; [reflexivity|]. split; [exact L|].
    split; [intros E0; rewrite E0 in T; discriminate T|].
    split; [exact P|]. split; [now rewrite Sv | reflexivity].
  - destruct e; intros [= _ <- _] N; now contradiction N.
Qed.

Lemma main_writes_only_after_parse_witness :
  exists lookup_table_file log_file_prefix output_file_prefix
         log1 lookup_table log2 tag_counts port_protocol_counts,
    read_configuration example_config =
      inl (lookup_table_file, log_file_prefix, output_file_prefix) /\
    load_lookup_table example_tables lookup_table_file =
      (log1, Ok lookup_table) /\
    lookup_table <> Dict.empty /\
    parse_flow_logs (dated_logs [line_email])
      (log_file_prefix ++ "_" ++ example_date ++ ".log")
      lookup_table = (log2, Ok (tag_counts, port_protocol_counts)) /\
    [ [Text "Tag Counts"]; [Text "Tag"; Text "Count"];
      [Text "Untagged"; Int 1];
      []; [Text "Port/Protocol Combination Counts"];
      [Text "Port"; Text "Protocol"; Text "Count"];
      [Text "25"; Text "tcp"; Int 1] ] =
      snd (save_results open_sink tag_counts port_protocol_counts
             (output_file_prefix ++ "_" ++ example_date ++ ".txt")) /\
    Ok tt = Ok tt.
Proof.
  exact (main_writes_only_after_parse example_config example_date
           example_tables (dated_logs [line_email]) open_sink
           [(INFO, "Lookup table successfully loaded.");
            (INFO, "Flow logs processed successfully.");
            (INFO, "Results successfully saved.")]
           [ [Text "Tag Counts"]; [Text "Tag"; Text "Count"];
             [Text "Untagged"; Int 1];
             []; [Text "Port/Protocol Combination Counts"];
             [Text "Port"; Text "Protocol"; Text "Count"];
             [Text "25"; Text "tcp"; Int 1] ]
           (Ok tt)
           ltac:(vm_compute; reflexivity) ltac:(discriminate)).
Defined.

Section Main.
Variables (cfg : config) (date_str : string).
Variables (tables : string -> file (list (list string))).
Variables (logs : string -> file (list string)) (sink : string -> file unit).
Variables (lookup_table_file log_file_prefix output_file_prefix : string).
Variables (log1 : list log_record) (lookup_table : lookup).

Hypothesis configured :
  read_configuration cfg =
    inl (lookup_table_file, log_file_prefix, output_file_prefix).
Hypothesis loaded :
  load_lookup_table tables lookup_table_file = (log1, Ok lookup_table).

Let log_file := log_file_prefix ++ "_" ++ date_str ++ ".log".
Let output_file := output_file_prefix ++ "_" ++ date_str ++ ".txt".

(** X13.  A line of another version halts [main] without a report:
    with a table of at least one entry and well-formed lines before
    that line, [main] writes nothing, logs the error a third time as
    the reason of the halt, and returns. *)
Theorem main_halts_on_version pre line post version :
  lookup_table <> Dict.empty ->
  logs log_file = Readable (pre ++ line :: post)%list ->
  Forall (fun l => well_formed l = true) pre ->
  nth_error (Str.split line) 0 = Some version ->
  version <> "2" ->
  main cfg date_str tables logs sink =
  ((log1
    ++ [version_log version;
        processing_log log_file (version_error version);
        (ERROR, ("Processing halted due to error: Unsupported log version "
                 ++ version ++ " encountered. Stopping processing.")%string)])%list,
   [], Ok tt).
Proof.
  intros T E F V N. unfold main.
  rewrite configured, loaded, (truthy_true _ T).
  fold log_file.
  rewrite (parse_bad_version logs log_file lookup_table pre line post version
             E F V N).
  reflexivity.
Qed.

(** X14.  A line of too few fields is not halted on: with a table of
    at least one entry and well-formed lines before that line, the
    [IndexError] leaves [main], which handles [ValueError] alone;
    nothing is written. *)
Theorem main_raises_on_short_line pre line post :
  lookup_table <> Dict.empty ->
  logs log_file = Readable (pre ++ line :: post)%list ->
  Forall (fun l => well_formed l = true) pre ->
  (List.length (Str.split line) < 8)%nat ->
  nth_error (Str.split line) 0 = Some "2" \/ Str.split line = [] ->
  main cfg date_str tables logs sink =
  ((log1 ++ [processing_log log_file index_error])%list, [],
   Raise index_error).
Proof.
  intros T E F L V. unfold main.
  rewrite configured, loaded, (truthy_true _ T).
  fold log_file.
  rewrite (parse_too_short logs log_file lookup_table pre line post E F L V).
  reflexivity.
Qed.

(** X15.  A flow log that is not there does not stop [main]: with a
    table of at least one entry and a sink that opens, [main] writes
    a report of the two captions and headers and no count, and
    returns. *)
Theorem main_reports_missing_log :
  lookup_table <> Dict.empty ->
  logs log_file = Missing ->
  sink output_file = Readable tt ->
  main cfg date_str tables logs sink =
  ((log1
    ++ [(ERROR, ("Could not find the file: " ++ log_file)%string);
        (INFO, "Results successfully saved.")])%list,
   [ [Text "Tag Counts"]; [Text "Tag"; Text "Count"]; [];
     [Text "Port/Protocol Combination Counts"];
     [Text "Port"; Text "Protocol"; Text "Count"] ],
   Ok tt).
Proof.
  intros T E Sk. unfold main.
  rewrite configured, loaded, (truthy_true _ T).
  fold log_file output_file.
  rewrite parse_flow_logs_spec, E.
  rewrite (save_results_spec sink Dict.empty Dict.empty output_file Sk).
  reflexivity.
Qed.
End Main.

(** X16.  [main] stops before the flow log when there is nothing to
    look tags up in: when the configuration cannot be read it logs
    that and returns; when the lookup table comes back empty it
    returns with the log of the loader.  In both cases nothing is
    written, and neither the flow log nor the sink matters. *)
Theorem main_stops_early cfg date_str tables logs sink :
  (forall e,
     read_configuration cfg = inr e ->
     main cfg date_str tables logs sink =
     ([(ERROR, "Failed to read configuration: " ++ e)], [], Ok tt)) /\
  (forall lookup_table_file log_file_prefix output_file_prefix,
     read_configuration cfg =
       inl (lookup_table_file, log_file_prefix, output_file_prefix) ->
     first_row_loads tables lookup_table_file = false ->
     main cfg date_str tables logs sink =
     (fst (load_lookup_table tables lookup_table_file), [], Ok tt)).
Proof.
  split.
  - intros e E. unfold main. now rewrite E.
  - intros ltf lfp ofp E Fr. unfold main. rewrite E.
    destruct (load_lookup_table_returns tables ltf) as (log1 & L).
    rewrite L. unfold first_row_loads in Fr. cbn [fst].
    destruct (tables ltf) as [|msg|[|header rows]]; try reflexivity.
    destruct rows as [|row rows]; [reflexivity|].
    destruct row as [|a [|b [|c [|d row]]]]; try reflexivity.
    discriminate Fr.
Qed.

Lemma main_stops_early_witness :
  main broken_config example_date example_tables (dated_logs [line_email])
    open_sink =
  ([(ERROR, "Failed to read configuration: No section: 'Files'")], [], Ok tt)
  /\
  main example_config example_date header_only (dated_logs [line_email])
    open_sink =
  ([(INFO, "Lookup table successfully loaded.")], [], Ok tt).
Proof.
  split.
  - exact (proj1 (main_stops_early broken_config example_date example_tables
                    (dated_logs [line_email]) open_sink) _ eq_refl).
  - exact (proj2 (main_stops_early example_config example_date header_only
                    (dated_logs [line_email]) open_sink)
             "lookup.csv" "flow" "report" eq_refl eq_refl).
Defined.

Lemma main_halts_on_version_witness :
  main example_config example_date example_tables
    (dated_logs [line_email; line_v3; line_port]) open_sink =
  ([(INFO, "Lookup table successfully loaded.");
    version_log "3";
    processing_log "flow_2024-05-04.log" (version_error "3");
    (ERROR, "Processing halted due to error: Unsupported log version 3 encountered. Stopping processing.")],
   [], Ok tt).
Proof.
  exact (main_halts_on_version example_config example_date example_tables
           (dated_logs [line_email; line_v3; line_port]) open_sink
           "lookup.csv" "flow" "report"
           [(INFO, "Lookup table successfully loaded.")]
           [(("80", "tcp"), "web")] eq_refl ltac:(vm_compute; reflexivity)
           [line_email] line_v3 [line_port] "3"
           ltac:(discriminate) eq_refl ltac:(repeat constructor)
           ltac:(vm_compute; reflexivity) ltac:(discriminate)).
Defined.

Lemma main_raises_on_short_line_witness :
  main example_config example_date example_tables
    (dated_logs [line_email; line_short; line_port]) open_sink =
  ([(INFO, "Lookup table successfully loaded.");
    processing_log "flow_2024-05-04.log" index_error],
   [], Raise index_error).
Proof.
  exact (main_raises_on_short_line example_config example_date example_tables
           (dated_logs [line_email; line_short; line_port]) open_sink
           "lookup.csv" "flow" "report"
           [(INFO, "Lookup table successfully loaded.")]
           [(("80", "tcp"), "web")] eq_refl ltac:(vm_compute; reflexivity)
           [line_email] line_short [line_port]
           ltac:(discriminate) eq_refl ltac:(repeat constructor)
           ltac:(vm_compute; lia) ltac:(left; vm_compute; reflexivity)).
Defined.

Lemma main_reports_missing_log_witness :
  main example_config example_date example_tables (fun _ => Missing)
    open_sink =
  ([(INFO, "Lookup table successfully loaded.");
    (ERROR, "Could not find the file: flow_2024-05-04.log");
    (INFO, "Results successfully saved.")],
   [ [Text "Tag Counts"]; [Text "Tag"; Text "Count"]; [];
     [Text "Port/Protocol Combination Counts"];
     [Text "Port"; Text "Protocol"; Text "Count"] ],
   Ok tt).
Proof.
  exact (main_reports_missing_log example_config example_date example_tables
           (fun _ => Missing) open_sink
           "lookup.csv" "flow" "report"
           [(INFO, "Lookup table successfully loaded.")]
           [(("80", "tcp"), "web")] eq_refl ltac:(vm_compute; reflexivity)
           ltac:(discriminate) eq_refl eq_refl).
Defined.

(** ** The lines [generate_log_file] writes *)

Lemma no_space_append a b :
  Str.no_space (a ++ b) = Str.no_space a && Str.no_space b.
Proof.
  induction a as [|c a IH]; cbn [append Str.no_space]; [reflexivity|].
  now rewrite IH, andb_assoc.
Qed.

Lemma no_space_uint d : Str.no_space (NilEmpty.string_of_uint d) = true.
Proof. induction d; cbn; auto. Qed.

Lemma no_space_str_N n : Str.no_space (str_N n) = true.
Proof. apply no_space_uint. Qed.

Lemma str_N_not_empty n : Str.is_empty (str_N n) = false.
Proof.
  unfold str_N. destruct n as [|p]; [reflexivity|]. cbn [N.to_uint].
  pose proof (DecimalPos.Unsigned.to_uint_nonnil p) as NN.
  destruct (Pos.to_uint p); [congruence | reflexivity ..].
Qed.

Lemma is_token_str_N n : Str.is_token (str_N n) = true.
Proof.
  unfold Str.is_token. now rewrite str_N_not_empty, no_space_str_N.
Qed.

Lemma log_entry_fields d : log_entry d = Str.join (log_fields d) ++ nl.
Proof.
  unfold log_entry, log_fields, nl. cbv zeta. cbn [Str.join].
  generalize (str_N 2), (str_N (dest_port d)), (str_N (src_port d)),
    (str_N (packet_count d)), (str_N (byte_count d)), (str_N 1620140761),
    (str_N (1620140761 + duration d)), (protocol_id d), (connection_action d),
    ("10.0." ++ str_N (source_ip3 d) ++ "." ++ str_N (source_ip4 d)),
    ("198.51.100." ++ str_N (destination_ip4 d)),
    ("eni-" ++ String (interface_letter1 d) "" ++ str_N (interface_digit1 d)
     ++ String (interface_letter2 d) "" ++ str_N (interface_digit2 d)).
  intros. rewrite !append_assoc. reflexivity.
Qed.

Ltac token :=
  unfold Str.is_token;
  repeat rewrite no_space_append;
  repeat rewrite no_space_str_N;
  repeat rewrite str_N_not_empty;
  cbn; try reflexivity.

Lemma log_fields_tokens d :
  valid_draws d -> Forall (fun f => Str.is_token f = true) (log_fields d).
Proof.
  intros (L1 & _ & L2 & _ & _ & _ & _ & _ & _ & P & _ & _ & _ & A).
  cbn [list_ascii_of_string In] in L1, L2. cbn [In] in P, A.
  unfold log_fields.
  repeat (apply Forall_cons || apply Forall_nil);
    try apply is_token_str_N; try reflexivity.
  - destruct L1 as [<-|[<-|[<-|[<-|[<-|[<-|[]]]]]]];
      destruct L2 as [<-|[<-|[<-|[<-|[<-|[<-|[]]]]]]]; token.
  - token.
  - token.
  - destruct P as [<-|[<-|[]]]; reflexivity.
  - destruct A as [<-|[<-|[]]]; reflexivity.
Qed.

Lemma log_entry_split d :
  valid_draws d -> Str.split (log_entry d) = log_fields d.
Proof.
  intros V. rewrite log_entry_fields. apply split_join.
  now apply log_fields_tokens.
Qed.

Lemma log_entry_kind d :
  valid_draws d ->
  kind_of (log_entry d) = Counted (str_N (dest_port d)) (drawn_protocol d).
Proof.
  intros V. unfold kind_of. rewrite (log_entry_split d V).
  destruct V as (_ & _ & _ & _ & _ & _ & _ & _ & _ & P & _).
  unfold log_fields, drawn_protocol. cbn [nth_error].
  change (str_N 2 =? "2")%string with true. cbn iota.
  destruct P as [<-|[<-|[]]]; reflexivity.
Qed.

(** X17.  Every line [generate_log_file] writes is a record to
    [parse_flow_logs]: it splits into its fourteen fields, the first
    of which is ["2"]; the body of the loop counts it under its
    destination port and the protocol tcp or udp, never ["unknown"];
    and [parse_flow_logs], on a log of that one line, returns one
    count for the tag of that key and one for the key. *)
Theorem generated_line_is_counted d :
  valid_draws d ->
  Str.split (log_entry d) = log_fields d /\
  List.length (Str.split (log_entry d)) = 14%nat /\
  well_formed (log_entry d) = true /\
  kind_of (log_entry d) = Counted (str_N (dest_port d)) (drawn_protocol d) /\
  (drawn_protocol d = "tcp" \/ drawn_protocol d = "udp") /\
  (forall lookup_table log c,
     parse_line lookup_table (log_entry d) (log, c) =
     ((log,
       (Dict.incr (fst c)
          (Dict.get_default lookup_table
             (str_N (dest_port d), drawn_protocol d) "Untagged"),
        Dict.incr (snd c) (str_N (dest_port d), drawn_protocol d))),
      Ok tt)) /\
  (forall fs log_filename lookup_table,
     fs log_filename = Readable [log_entry d] ->
     parse_flow_logs fs log_filename lookup_table =
     ([(INFO, "Flow logs processed successfully.")],
      Ok ([(Dict.get_default lookup_table
              (str_N (dest_port d), drawn_protocol d) "Untagged", 1)],
          [((str_N (dest_port d), drawn_protocol d), 1)]))).
Proof.
  intros V. pose proof (log_entry_split d V) as Sp.
  pose proof (log_entry_kind d V) as Kd.
  split; [exact Sp|]. split; [now rewrite Sp|].
  split; [apply well_formed_kind; eauto|]. split; [exact Kd|].
  split; [unfold drawn_protocol; destruct (protocol_id d =? "6")%string; auto|].
  split.
  - intros tbl log c. rewrite parse_line_spec, Kd. reflexivity.
  - intros fs f tbl E. rewrite parse_flow_logs_spec, E. cbn [scan].
    rewrite Kd. reflexivity.
Qed.

Lemma example_draws_valid : valid_draws example_draws.
Proof.
  unfold valid_draws, example_draws.
  cbn [interface_letter1 interface_digit1 interface_letter2 interface_digit2
       source_ip3 source_ip4 destination_ip4 dest_port src_port protocol_id
       packet_count byte_count duration connection_action
       list_ascii_of_string In].
  repeat split; try lia; tauto.
Defined.

Lemma generated_line_is_counted_witness :
  Str.split (log_entry example_draws) =
    ["2"; "123456789012"; "eni-c7f2"; "10.0.0.255"; "198.51.100.17"; "443";
     "50211"; "17"; "12"; "4096"; "1620140761"; "1620141761"; "REJECT"; "OK"]
  /\
  kind_of (log_entry example_draws) = Counted "443" "udp" /\
  parse_flow_logs (fun _ => Readable [log_entry example_draws])
    "network_logs.log" [(("443", "udp"), "quic")] =
  ([(INFO, "Flow logs processed successfully.")],
   Ok ([("quic", 1)], [(("443", "udp"), 1)])).
Proof.
  destruct (generated_line_is_counted example_draws example_draws_valid)
    as (A & _ & _ & B & _ & _ & C).
  split; [exact A|]. split; [exact B|].
  exact (C (fun _ => Readable [log_entry example_draws]) "network_logs.log"
           [(("443", "udp"), "quic")] eq_refl).
Defined.

Lemma counted_keys_generated ds :
  Forall valid_draws ds ->
  counted_keys (map log_entry ds) =
  map (fun d => (str_N (dest_port d), drawn_protocol d)) ds.
Proof.
  induction 1 as [|d ds V F IH]; [reflexivity|].
  unfold counted_keys in *. cbn [map flat_map]. unfold line_key at 1.
  rewrite (log_entry_kind d V), IH. reflexivity.
Qed.

(** X18.  A log made of lines of [generate_log_file] is parsed to the
    end, whatever the lookup table: [parse_flow_logs] returns, the
    tag counts sum to the number of lines, and every protocol of the
    port/protocol counts is tcp or udp. *)
Theorem generated_log_parses fs log_filename lookup_table ds :
  Forall valid_draws ds ->
  fs log_filename = Readable (map log_entry ds) ->
  exists tag_counts port_protocol_counts,
    parse_flow_logs fs log_filename lookup_table =
      ([(INFO, "Flow logs processed successfully.")],
       Ok (tag_counts, port_protocol_counts)) /\
    Dict.total tag_counts = Z.of_nat (List.length ds) /\
    (forall dstport protocol n,
       In ((dstport, protocol), n) (Dict.items port_protocol_counts) ->
       protocol = "tcp" \/ protocol = "udp").
Proof.
  intros V E.
  assert (W : Forall (fun l => well_formed l = true) (map log_entry ds)).
  { apply Forall_map. eapply Forall_impl; [|exact V].
    intros d Vd. apply well_formed_kind. rewrite (log_entry_kind d Vd). eauto. }
  eexists _, _. split; [exact (parse_well_formed _ _ _ _ E W)|].
  rewrite (counted_keys_generated ds V). split.
  - rewrite total_fold_incr, !length_map. reflexivity.
  - intros p pr n I. apply fold_incr_entry in I. destruct I as [_ I].
    apply in_map_iff in I. destruct I as (d & [= _ <-] & _).
    unfold drawn_protocol. destruct (protocol_id d =? "6")%string; auto.
Qed.

Lemma generated_log_parses_witness :
  exists tag_counts port_protocol_counts,
    parse_flow_logs (fun _ => Readable (map log_entry [example_draws; example_draws]))
      "network_logs.log" example_table =
      ([(INFO, "Flow logs processed successfully.")],
       Ok (tag_counts, port_protocol_counts)) /\
    Dict.total tag_counts = 2 /\
    (forall dstport protocol n,
       In ((dstport, protocol), n) (Dict.items port_protocol_counts) ->
       protocol = "tcp" \/ protocol = "udp").
Proof.
  exact (generated_log_parses
           (fun _ => Readable (map log_entry [example_draws; example_draws]))
           "network_logs.log" example_table [example_draws; example_draws]
           (Forall_cons _ example_draws_valid
              (Forall_cons _ example_draws_valid (Forall_nil _)))
           eq_refl).
Defined.

(** ** A table that matches nothing *)

Lemma fold_incr_same (ks : list (string * string)) (k : string) v :
  fold_left Dict.incr (map (fun _ => k) ks) [(k, v)] =
  [(k, v + Z.of_nat (List.length ks))].
Proof.
  revert v. induction ks as [|k0 ks IH]; intros v; cbn [map fold_left List.length].
  - do 2 f_equal. lia.
  - unfold Dict.incr at 2, Dict.get_default. cbn [Dict.get Dict.set].
    change (key_eqb k k) with (k =? k)%string. rewrite String.eqb_refl.
    rewrite IH. do 2 f_equal. lia.
Qed.

(** X19.  When no line of the log has a key with an entry in the
    lookup table, as with the empty table, and [parse_flow_logs]
    returns, the tag counts are the one entry of ["Untagged"], with
    the number of lines of the log, or nothing when the log has no
    line. *)
Theorem unmatched_log_is_untagged
    fs log_filename lookup_table log tag_counts port_protocol_counts :
  parse_flow_logs fs log_filename lookup_table =
    (log, Ok (tag_counts, port_protocol_counts)) ->
  (forall key,
     In key (counted_keys (lines_of fs log_filename)) ->
     Dict.get lookup_table key = None) ->
  tag_counts =
  match lines_of fs log_filename with
  | [] => Dict.empty
  | _ :: _ =>
      [("Untagged", Z.of_nat (List.length (lines_of fs log_filename)))]
  end.
Proof.
  intros P M. apply parse_returns in P. destruct P as [[= -> ->] F].
  pose proof (counted_keys_length _ F) as L.
  rewrite (map_ext_in (tag_of lookup_table) (fun _ => "Untagged")).
  2:{ intros key I. unfold tag_of, Dict.get_default. now rewrite (M key I). }
  rewrite <- L.
  destruct (lines_of fs log_filename) as [|line lines];
    [reflexivity|].
  destruct (counted_keys (line :: lines)) as [|key keys]; [discriminate L|].
  cbn [map fold_left]. unfold Dict.incr at 2, Dict.get_default.
  cbn [Dict.get Dict.empty Dict.set]. rewrite fold_incr_same.
  do 2 f_equal. cbn [List.length]. lia.
Qed.

Lemma unmatched_log_is_untagged_witness :
  [("Untagged", 3)] =
  match lines_of example_logs "flow.log" with
  | [] => Dict.empty
  | _ :: _ =>
      [("Untagged", Z.of_nat (List.length (lines_of example_logs "flow.log")))]
  end.
Proof.
  exact (unmatched_log_is_untagged example_logs "flow.log" Dict.empty
           [(INFO, "Flow logs processed successfully.")]
           [("Untagged", 3)]
           [(("25", "tcp"), 1); (("80", "unknown"), 1); (("81", "udp"), 1)]
           ltac:(vm_compute; reflexivity) (fun _ _ => eq_refl)).
Defined.

(** ** Lines of any number of fields, and the ["Untagged"] row *)

Lemma record_shaped_well_formed line :
  record_shaped line -> well_formed line = true.
Proof.
  intros [E L]. unfold well_formed. rewrite E, String.eqb_refl.
  now apply Nat.leb_le.
Qed.

Lemma record_shaped_key line :
  record_shaped line -> line_key line = Some (field_key line).
Proof.
  intros [E L].
  destruct (kind_of_well_formed line E L) as (p & code & E5 & E7 & Kd).
  unfold line_key, field_key. rewrite Kd.
  now rewrite (nth_error_nth _ _ _ E5), (nth_error_nth _ _ _ E7).
Qed.

Lemma counted_keys_record_shaped lines :
  Forall record_shaped lines -> counted_keys lines = map field_key lines.
Proof.
  induction 1 as [|line lines R F IH]; [reflexivity|].
  unfold counted_keys in *. cbn [flat_map map].
  now rewrite (record_shaped_key line R), IH.
Qed.

Lemma kind_of_same_fields line1 line2 :
  same_fields_0_5_7 line1 line2 -> kind_of line1 = kind_of line2.
Proof. intros (E0 & E5 & E7). unfold kind_of. now rewrite E0, E5, E7. Qed.

Lemma scan_same_fields lookup_table lines1 lines2 c :
  Forall2 same_fields_0_5_7 lines1 lines2 ->
  scan lookup_table lines1 c = scan lookup_table lines2 c.
Proof.
  intros F. revert c. induction F as [|l1 l2 lines1 lines2 S F IH]; intros c;
    [reflexivity|].
  cbn [scan]. rewrite (kind_of_same_fields l1 l2 S).
  destruct (kind_of l2); auto.
Qed.

(** C10.  The number of fields is checked nowhere beyond what indexing
    needs.  A line whose first field is ["2"] and that has at least
    eight fields, fourteen or not, is counted under its fields 5 and
    7; so is the line made of any eight or more tokens of which the
    first is ["2"]; two lines with the same fields 0, 5 and 7 are
    processed alike, whatever their other fields and however many
    they have.  So [parse_flow_logs], on a log of such lines, returns
    the tally of the keys made of their fields 5 and 7, one count for
    each line; and on two logs whose lines have the same fields 0, 5
    and 7 one by one, it gives the same result. *)
Theorem field_count_not_checked :
  (forall lookup_table line log c,
     nth_error (Str.split line) 0 = Some "2" ->
     (8 <= List.length (Str.split line))%nat ->
     exists dstport protocol_code,
       nth_error (Str.split line) 5 = Some dstport /\
       nth_error (Str.split line) 7 = Some protocol_code /\
       parse_line lookup_table line (log, c) =
       ((log,
         (Dict.incr (fst c)
            (Dict.get_default lookup_table
               (dstport, resolve protocol_code) "Untagged"),
          Dict.incr (snd c) (dstport, resolve protocol_code))),
        Ok tt)) /\
  (forall lookup_table fields log c,
     Forall (fun f => Str.is_token f = true) fields ->
     nth_error fields 0 = Some "2" ->
     (8 <= List.length fields)%nat ->
     exists dstport protocol_code,
       nth_error fields 5 = Some dstport /\
       nth_error fields 7 = Some protocol_code /\
       parse_line lookup_table (Str.join fields ++ nl) (log, c) =
       ((log,
         (Dict.incr (fst c)
            (Dict.get_default lookup_table
               (dstport, resolve protocol_code) "Untagged"),
          Dict.incr (snd c) (dstport, resolve protocol_code))),
        Ok tt)) /\
  (forall lookup_table line1 line2 w,
     nth_error (Str.split line1) 0 = nth_error (Str.split line2) 0 ->
     nth_error (Str.split line1) 5 = nth_error (Str.split line2) 5 ->
     nth_error (Str.split line1) 7 = nth_error (Str.split line2) 7 ->
     parse_line lookup_table line1 w = parse_line lookup_table line2 w) /\
  (forall fs log_filename lookup_table lines,
     fs log_filename = Readable lines ->
     Forall record_shaped lines ->
     exists tag_counts port_protocol_counts,
       parse_flow_logs fs log_filename lookup_table =
         ([(INFO, "Flow logs processed successfully.")],
          Ok (tag_counts, port_protocol_counts)) /\
       Dict.total tag_counts = Z.of_nat (List.length lines) /\
       Dict.total port_protocol_counts = Z.of_nat (List.length lines) /\
       (forall tag,
          Dict.get tag_counts tag =
          entry (occurrences tag
                   (map (fun l => tag_of lookup_table (field_key l)) lines))) /\
       (forall key,
          Dict.get port_protocol_counts key =
          entry (occurrences key (map field_key lines)))) /\
  (forall fs1 fs2 log_filename lookup_table lines1 lines2,
     fs1 log_filename = Readable lines1 ->
     fs2 log_filename = Readable lines2 ->
     Forall2 same_fields_0_5_7 lines1 lines2 ->
     parse_flow_logs fs1 log_filename lookup_table =
     parse_flow_logs fs2 log_filename lookup_table).
Proof.
  assert (A : forall lookup_table line log c,
     nth_error (Str.split line) 0 = Some "2" ->
     (8 <= List.length (Str.split line))%nat ->
     exists dstport protocol_code,
       nth_error (Str.split line) 5 = Some dstport /\
       nth_error (Str.split line) 7 = Some protocol_code /\
       parse_line lookup_table line (log, c) =
       ((log, count_record lookup_table c (dstport, resolve protocol_code)),
        Ok tt)).
  { intros tbl line log c E0 L.
    destruct (kind_of_well_formed line E0 L) as (p & code & E5 & E7 & Kd).
    exists p, code. rewrite parse_line_spec, Kd. auto. }
  split; [exact A | split; [|split; [|split]]].
  - intros tbl fields log c T E0 L.
    pose proof (split_join fields T) as Sp.
    destruct (A tbl (Str.join fields ++ nl) log c) as (p & code & E5 & E7 & P);
      rewrite ?Sp; auto.
    rewrite Sp in E5, E7. exists p, code. auto.
  - intros tbl line1 line2 w E0 E5 E7.
    unfold parse_line, index. cbv zeta. rewrite E0, E5, E7. reflexivity.
  - intros fs f tbl lines E R.
    assert (W : Forall (fun l => well_formed l = true) lines).
    { eapply Forall_impl; [|exact R]. apply record_shaped_well_formed. }
    eexists _, _. split; [exact (parse_well_formed fs f tbl lines E W)|].
    rewrite (counted_keys_record_shaped lines R).
    rewrite !total_fold_incr, !length_map, map_map.
    repeat split; try reflexivity;
      intros k; rewrite get_fold_incr; cbn [Dict.get Dict.empty];
      unfold bump, entry; destruct (occurrences k _); reflexivity.
  - intros fs1 fs2 f tbl lines1 lines2 E1 E2 S.
    rewrite !parse_flow_logs_spec, E1, E2.
    now rewrite (scan_same_fields tbl lines1 lines2 _ S).
Qed.

Lemma field_count_not_checked_witness :
  (exists dstport protocol_code,
     nth_error (Str.split line_eight) 5 = Some dstport /\
     nth_error (Str.split line_eight) 7 = Some protocol_code /\
     parse_line example_table line_eight ([], (Dict.empty, Dict.empty)) =
     (([],
       (Dict.incr Dict.empty
          (Dict.get_default example_table
             (dstport, resolve protocol_code) "Untagged"),
        Dict.incr Dict.empty (dstport, resolve protocol_code))),
      Ok tt)) /\
  (exists dstport protocol_code,
     nth_error fields_sixteen 5 = Some dstport /\
     nth_error fields_sixteen 7 = Some protocol_code /\
     parse_line example_table (Str.join fields_sixteen ++ nl)
       ([], (Dict.empty, Dict.empty)) =
     (([],
       (Dict.incr Dict.empty
          (Dict.get_default example_table
             (dstport, resolve protocol_code) "Untagged"),
        Dict.incr Dict.empty (dstport, resolve protocol_code))),
      Ok tt)) /\
  parse_line example_table line_fifteen ([], (Dict.empty, Dict.empty)) =
  parse_line example_table line_email ([], (Dict.empty, Dict.empty)) /\
  (exists tag_counts port_protocol_counts,
     parse_flow_logs odd_lengths "flow.log" example_table =
       ([(INFO, "Flow logs processed successfully.")],
        Ok (tag_counts, port_protocol_counts)) /\
     Dict.total tag_counts = 3 /\
     Dict.total port_protocol_counts = 3 /\
     Dict.get tag_counts "email" = Some 3 /\
     Dict.get port_protocol_counts ("25", "tcp") = Some 3) /\
  parse_flow_logs odd_lengths "flow.log" example_table =
  parse_flow_logs odd_lengths_trimmed "flow.log" example_table.
Proof.
  destruct field_count_not_checked as (A & B & C & D & E).
  split; [|split; [|split; [|split]]].
  - exact (A example_table line_eight [] (Dict.empty, Dict.empty)
             ltac:(vm_compute; reflexivity) ltac:(vm_compute; lia)).
  - exact (B example_table fields_sixteen [] (Dict.empty, Dict.empty)
             ltac:(repeat constructor) ltac:(reflexivity)
             ltac:(vm_compute; lia)).
  - exact (C example_table line_fifteen line_email
             ([], (Dict.empty, Dict.empty))
             ltac:(vm_compute; reflexivity) ltac:(vm_compute; reflexivity)
             ltac:(vm_compute; reflexivity)).
  - destruct (D odd_lengths "flow.log" example_table
                [line_eight; line_fifteen; line_email] eq_refl)
      as (tc & ppc & P & T1 & T2 & G1 & G2).
    { repeat (apply Forall_cons || apply Forall_nil);
        (split; [vm_compute; reflexivity | vm_compute; lia]). }
    exists tc, ppc. split; [exact P|]. split; [exact T1|]. split; [exact T2|].
    split; [rewrite G1 | rewrite G2]; vm_compute; reflexivity.
  - apply (E odd_lengths odd_lengths_trimmed "flow.log" example_table
             [line_eight; line_fifteen; line_email]
             [line_eight; line_email; line_fifteen] eq_refl eq_refl).
    repeat (apply Forall2_cons || apply Forall2_nil);
      (unfold same_fields_0_5_7; split; [|split]; vm_compute; reflexivity).
Defined.

(** C9.  The lookup table acts on the parse only through the tag it
    gives each key, ["Untagged"] for a miss: two tables that give the
    same tags give the same result.  When the parse returns, the
    counter of ["Untagged"] is the number of lines whose key has no
    entry plus the number of lines whose key is mapped to
    ["Untagged"]; when that sum is positive the tag block ends with
    the one row of ["Untagged"], which carries it, and [save_results],
    when the sink opens, writes that row after the rows of the other
    tags, none of which is a row of ["Untagged"], and before the blank
    row. *)
Theorem untagged_counter_shared :
  (forall fs log_filename t1 t2,
     (forall key, tag_of t1 key = tag_of t2 key) ->
     parse_flow_logs fs log_filename t1 = parse_flow_logs fs log_filename t2) /\
  (forall fs log_filename lookup_table log tag_counts port_protocol_counts,
     parse_flow_logs fs log_filename lookup_table =
       (log, Ok (tag_counts, port_protocol_counts)) ->
     let n :=
       Z.of_nat (List.length
                   (filter (unmatched lookup_table) (lines_of fs log_filename)))
       + Z.of_nat (List.length
                     (filter (matched_untagged lookup_table)
                        (lines_of fs log_filename))) in
     Dict.get_default tag_counts "Untagged" 0 = n /\
     (0 < n ->
      last (tag_block tag_counts) [] = [Text "Untagged"; Int n] /\
      filter untagged_row (tag_block tag_counts) = [[Text "Untagged"; Int n]] /\
      (forall sink output_filename,
         sink output_filename = Readable tt ->
         exists rest,
           snd (save_results sink tag_counts port_protocol_counts
                  output_filename) =
           ([Text "Tag Counts"] :: [Text "Tag"; Text "Count"]
              :: map tag_row (sorted_tags tag_counts)
              ++ [Text "Untagged"; Int n] :: [] :: rest)%list /\
           filter untagged_row (map tag_row (sorted_tags tag_counts)) = []))).
Proof.
  split.
  - intros fs f t1 t2 T. rewrite !parse_flow_logs_spec.
    destruct (fs f); try reflexivity. now rewrite (scan_ext t1 t2).
  - intros fs f tbl log tc ppc P n.
    assert (U : Dict.get_default tc "Untagged" 0 = n).
    { subst n. rewrite <- Nat2Z.inj_add, <- tagged_untagged.
      rewrite parse_flow_logs_spec in P. unfold lines_of.
      destruct (fs f) as [|msg|lines].
      - injection P as _ <- _. reflexivity.
      - discriminate.
      - destruct (scan tbl lines (Dict.empty, Dict.empty)) as [c [[]|]] eqn:Sc;
          try discriminate.
        injection P as _ ->.
        apply (scan_tag_count _ _ _ _ "Untagged") in Sc. exact Sc. }
    split; [exact U|]. intros Pn.
    pose proof (tag_block_spec tc) as B. rewrite U in B.
    apply Z.ltb_lt in Pn. rewrite Pn in B. split; [|split].
    + rewrite B.
      change ([Text "Tag"; Text "Count"] :: map tag_row (sorted_tags tc)
                ++ [[Text "Untagged"; Int n]])%list
        with (([Text "Tag"; Text "Count"] :: map tag_row (sorted_tags tc))
                ++ [[Text "Untagged"; Int n]])%list.
      apply last_last.
    + rewrite B. cbn [filter untagged_row].
      change ("Tag" =? "Untagged")%string with false. cbn iota.
      rewrite filter_app, filter_untagged_rows. reflexivity.
    + intros sink out E. rewrite (save_results_spec _ _ _ _ E). cbn [snd].
      rewrite B. eexists. split; [|apply filter_untagged_rows].
      cbn [app]. rewrite <- app_assoc. reflexivity.
Qed.

Lemma untagged_counter_shared_witness :
  parse_flow_logs untagged_logs "flow.log" example_table =
  parse_flow_logs untagged_logs "flow.log" [(("25", "tcp"), "email")] /\
  Dict.get_default [("email", 1); ("Untagged", 2)] "Untagged" 0 = 1 + 1 /\
  last (tag_block [("email", 1); ("Untagged", 2)]) [] =
    [Text "Untagged"; Int 2] /\
  filter untagged_row (tag_block [("email", 1); ("Untagged", 2)]) =
    [[Text "Untagged"; Int 2]] /\
  exists rest,
    snd (save_results open_sink [("email", 1); ("Untagged", 2)]
           [(("25", "tcp"), 1); (("443", "tcp"), 1); (("81", "udp"), 1)]
           "report.txt") =
    ([Text "Tag Counts"] :: [Text "Tag"; Text "Count"]
       :: map tag_row (sorted_tags [("email", 1); ("Untagged", 2)])
       ++ [Text "Untagged"; Int 2] :: [] :: rest)%list /\
    filter untagged_row
      (map tag_row (sorted_tags [("email", 1); ("Untagged", 2)])) = [].
Proof.
  destruct untagged_counter_shared as [A B]. split.
  - apply A. intros key. unfold tag_of, Dict.get_default.
    cbn [Dict.get example_table].
    destruct (key_eqb ("25", "tcp") key); [reflexivity|].
    destruct (key_eqb ("443", "tcp") key); reflexivity.
  - destruct (B untagged_logs "flow.log" example_table
                [(INFO, "Flow logs processed successfully.")]
                [("email", 1); ("Untagged", 2)]
                [(("25", "tcp"), 1); (("443", "tcp"), 1); (("81", "udp"), 1)]
                ltac:(vm_compute; reflexivity)) as [U L].
    split; [exact U|].
    destruct (L ltac:(reflexivity)) as (L1 & L2 & L3).
    split; [exact L1|]. split; [exact L2|].
    exact (L3 open_sink "report.txt" eq_refl).
Defined.
